(** * Location service: PIN-code validation, Haversine distance and
      landmark ranking (main.go)

    A shallow embedding of [main.go], from the service to its HTTP
    handlers, and the properties of it that the specification states or
    that the code shows.

    Numeric model.  Go's [float64] and [float32] values are modelled by
    real numbers ([R]) and the functions of package [math] by their exact
    real counterparts: rounding, infinities and NaN are outside that
    model, and what is proved in it is a statement about exact
    arithmetic.  Go's [int] is modelled by [Z].  Where rounding decides,
    module [float64] runs [calculateDistance] in binary64, on the
    kernel's floating-point numbers.

    Library model.  [strings.ToLower], [strings.TrimSpace] and
    [sort.Slice] belong to Go's standard library; the service is stated
    over arbitrary implementations of them (Section variables), and
    [sort.Slice] is only assumed to meet its documented contract.  The
    Google Maps client is an oracle whose answers may depend on the whole
    history of calls; every call is recorded in a trace.  A deadline of
    the [context.Context] that expires shows as an error answer of the
    client.

    HTTP model.  The handlers and the middleware act on a response writer
    that records the header map, the status code together with the
    headers sent with it, and the body written.  The JSON decoder and
    encoder and the router of [main] are Section variables.

    Earlier revision.  The second Go file of the repository holds an
    earlier revision of the service; what differs there is embedded in
    module [Legacy] and in the definitions named [legacy...]. *)

From Stdlib Require Import Reals Lra Lia ZArith List Bool String Ascii.
From Stdlib Require Import Permutation Sorted DecimalString.
From Stdlib Require PrimInt63 PrimFloat.
Import ListNotations.

Local Open Scope R_scope.

(** ** Package [math] on real numbers *)

Module math.

Definition Sin (x : R) : R := sin x.
Definition Cos (x : R) : R := cos x.
Definition Sqrt (x : R) : R := sqrt x.
Definition Atan (x : R) : R := atan x.

(** [math.Atan2(y, x)]: the case analysis of Go's [atan2], without the
    cases for NaN, infinities and negative zero. *)
Definition Atan2 (y x : R) : R :=
  if Req_dec_T y 0 then
    (if Rle_dec 0 x then 0 else PI)
  else if Req_dec_T x 0 then
    (if Rlt_dec 0 y then PI / 2 else - (PI / 2))
  else
    let q := Atan (y / x) in
    if Rlt_dec x 0 then
      (if Rle_dec q 0 then q + PI else q - PI)
    else q.

(** [math.Log10(x)], the decimal logarithm. *)
Definition Log10 (x : R) : R := ln x / ln 10.

End math.

(** Comparisons of [float64] values as booleans. *)
Definition Rltb (x y : R) : bool := if Rlt_dec x y then true else false.
Definition Rgtb (x y : R) : bool := if Rgt_dec x y then true else false.
Definition Reqb (x y : R) : bool := if Req_dec_T x y then true else false.

(** ** [calculateDistance] (Haversine formula) *)

Definition earthRadius : R := 6371000.
Definition pi : R := 3.14159265359.

Definition calculateDistance (lat1 lon1 lat2 lon2 : R) : R :=
  let lat1Rad := lat1 * (pi / 180) in
  let lat2Rad := lat2 * (pi / 180) in
  let deltaLat := (lat2 - lat1) * (pi / 180) in
  let deltaLon := (lon2 - lon1) * (pi / 180) in
  let sinDeltaLat := math.Sin (deltaLat / 2) in
  let sinDeltaLon := math.Sin (deltaLon / 2) in
  let a := sinDeltaLat * sinDeltaLat +
           math.Cos lat1Rad * math.Cos lat2Rad * sinDeltaLon * sinDeltaLon in
  let c := 2 * math.Atan2 (math.Sqrt a) (math.Sqrt (1 - a)) in
  earthRadius * c.

(** The argument [a] of the two square roots, as [calculateDistance]
    computes it. *)
Definition haversine_a (lat1 lon1 lat2 lon2 : R) : R :=
  let lat1Rad := lat1 * (pi / 180) in
  let lat2Rad := lat2 * (pi / 180) in
  let deltaLat := (lat2 - lat1) * (pi / 180) in
  let deltaLon := (lon2 - lon1) * (pi / 180) in
  let sinDeltaLat := math.Sin (deltaLat / 2) in
  let sinDeltaLon := math.Sin (deltaLon / 2) in
  sinDeltaLat * sinDeltaLat +
  math.Cos lat1Rad * math.Cos lat2Rad * sinDeltaLon * sinDeltaLon.

(** ** The popularity score (lines 284-286 of [GetNearbyLandmarks]) *)

Definition popScore (Rating : R) (UserRatingsTotal : Z) (distance : R) : R :=
  let reviewScore := Rating * math.Log10 (IZR UserRatingsTotal + 1) in
  let distancePenalty := 1 + distance / 1000 in
  reviewScore / distancePenalty.

(** ** Package [math] and [calculateDistance] in binary64

    The functions of Go's package [math] that [calculateDistance] calls,
    as its portable Go sources define them (sin.go, atan.go, atan2.go;
    [math.Sqrt] is the correctly rounded square root), every operation
    rounded on its own: the code as compiled without fused
    multiply-add, as on amd64.  The constant expressions [4 / Pi],
    [Pi / 2], [Pi / 4], [3 * Pi / 4] and [pi / 180], which Go evaluates
    exactly before rounding, have the same binary64 value when they are
    computed from the rounded constants, as they are written here.  The
    argument reduction of [math.Sin] and [math.Cos] for arguments from
    [1 << 29] on goes through a table of the digits of 4/Pi; it is a
    parameter ([trigReduce]). *)

Module float64.

Import PrimInt63 PrimFloat.
Local Open Scope float_scope.
#[local] Set Warnings "-inexact-float".

Definition Pi : float :=
  3.14159265358979323846264338327950288419716939937510582097494459.

Definition NaN : float := nan.
Definition IsNaN (f : float) : bool := is_nan f.
Definition IsInf (f : float) : bool := is_infinity f.
Definition Signbit (x : float) : bool := get_sign x.
Definition Copysign (f sign : float) : float :=
  if Signbit sign then - abs f else abs f.
Definition Sqrt (x : float) : float := sqrt x.

(** The conversion [uint64(x)] for [0 <= x < 1 << 53]: the integer
    part of [x], read off its mantissa and exponent. *)
Definition uint64 (x : float) : PrimInt63.int :=
  let (m, e) := frshiftexp x in
  if PrimInt63.leb e 2101%uint63 then 0%uint63
  else PrimInt63.lsr (normfr_mantissa m)
         (PrimInt63.sub 53%uint63 (PrimInt63.sub e 2101%uint63)).

Definition reduceThreshold : float := 536870912.

Section Trig.

Variable trigReduce : float -> PrimInt63.int * float.

Definition PI4A : float := 7.85398125648498535156e-1.
Definition PI4B : float := 3.77489470793079817668e-8.
Definition PI4C : float := 2.69515142907905952645e-15.

(** The two polynomials of sin.go, with the coefficients [_sin] and
    [_cos]. *)
Definition sinPoly (z zz : float) : float :=
  z + z * zz *
      ((((((1.58962301576546568060e-10 * zz) + -2.50507477628578072866e-8) * zz
          + 2.75573136213857245213e-6) * zz + -1.98412698295895385996e-4) * zz
        + 8.33333333332211858878e-3) * zz + -1.66666666666666307295e-1).

Definition cosPoly (zz : float) : float :=
  1.0 - 0.5 * zz + zz * zz *
      ((((((-1.13585365213876817300e-11 * zz) + 2.08757008419747316778e-9) * zz
          + -2.75573141792967388112e-7) * zz + 2.48015872888517045348e-5) * zz
        + -1.38888888888730564116e-3) * zz + 4.16666666666665929218e-2).

(** The octant [j] and the reduced argument [z] of a non-negative [x],
    computed alike in [sin] and in [cos]. *)
Definition reduce (x : float) : PrimInt63.int * float :=
  if reduceThreshold <=? x then trigReduce x
  else
    let j := uint64 (x * (4 / Pi)) in
    let y := of_uint63 j in
    let '(j, y) :=
      if PrimInt63.eqb (PrimInt63.land j 1%uint63) 1%uint63
      then (PrimInt63.add j 1%uint63, y + 1) else (j, y) in
    let j := PrimInt63.land j 7%uint63 in
    let z := ((x - y * PI4A) - y * PI4B) - y * PI4C in
    (j, z).

Definition Sin (x : float) : float :=
  if (x =? 0) || IsNaN x then x
  else if IsInf x then NaN
  else
    let '(x, sign) := if x <? 0 then (- x, true) else (x, false) in
    let '(j, z) := reduce x in
    let '(sign, j) :=
      if PrimInt63.ltb 3%uint63 j
      then (negb sign, PrimInt63.sub j 4%uint63) else (sign, j) in
    let zz := z * z in
    let y :=
      if PrimInt63.eqb j 1%uint63 || PrimInt63.eqb j 2%uint63
      then cosPoly zz else sinPoly z zz in
    if sign then - y else y.

Definition Cos (x : float) : float :=
  if IsNaN x || IsInf x then NaN
  else
    let sign := false in
    let x := abs x in
    let '(j, z) := reduce x in
    let '(j, sign) :=
      if PrimInt63.ltb 3%uint63 j
      then (PrimInt63.sub j 4%uint63, negb sign) else (j, sign) in
    let sign := if PrimInt63.ltb 1%uint63 j then negb sign else sign in
    let zz := z * z in
    let y :=
      if PrimInt63.eqb j 1%uint63 || PrimInt63.eqb j 2%uint63
      then sinPoly z zz else cosPoly zz in
    if sign then - y else y.

Definition xatan (x : float) : float :=
  let P0 := -8.750608600031904122785e-01 in
  let P1 := -1.615753718733365076637e+01 in
  let P2 := -7.500855792314704667340e+01 in
  let P3 := -1.228866684490136173410e+02 in
  let P4 := -6.485021904942025371773e+01 in
  let Q0 := 2.485846490142306297962e+01 in
  let Q1 := 1.650270098316988542046e+02 in
  let Q2 := 4.328810604912902668951e+02 in
  let Q3 := 4.853903996359136964868e+02 in
  let Q4 := 1.945506571482613964425e+02 in
  let z := x * x in
  let z := z * ((((P0 * z + P1) * z + P2) * z + P3) * z + P4)
           / (((((z + Q0) * z + Q1) * z + Q2) * z + Q3) * z + Q4) in
  let z := x * z + x in
  z.

Definition satan (x : float) : float :=
  let Morebits := 6.123233995736765886130e-17 in
  let Tan3pio8 := 2.41421356237309504880 in
  if x <=? 0.66 then xatan x
  else if Tan3pio8 <? x then Pi / 2 - xatan (1 / x) + Morebits
  else Pi / 4 + xatan ((x - 1) / (x + 1)) + 0.5 * Morebits.

Definition Atan (x : float) : float :=
  if x =? 0 then x
  else if 0 <? x then satan x
  else - satan (- x).

Definition Atan2 (y x : float) : float :=
  if IsNaN x || IsNaN y then NaN
  else if y =? 0 then
    if (0 <=? x) && negb (Signbit x) then Copysign 0 y else Copysign Pi y
  else if x =? 0 then Copysign (Pi / 2) y
  else if IsInf x then
    if 0 <? x then
      if IsInf y then Copysign (Pi / 4) y else Copysign 0 y
    else
      if IsInf y then Copysign (3 * Pi / 4) y else Copysign Pi y
  else if IsInf y then Copysign (Pi / 2) y
  else
    let q := Atan (y / x) in
    if x <? 0 then (if q <=? 0 then q + Pi else q - Pi) else q.

(** [calculateDistance] of main.go, statement by statement. *)
Definition calculateDistance (lat1 lon1 lat2 lon2 : float) : float :=
  let earthRadius := 6371000 in
  let pi := 3.14159265359 in
  let lat1Rad := lat1 * (pi / 180) in
  let lat2Rad := lat2 * (pi / 180) in
  let deltaLat := (lat2 - lat1) * (pi / 180) in
  let deltaLon := (lon2 - lon1) * (pi / 180) in
  let sinDeltaLat := Sin (deltaLat / 2) in
  let sinDeltaLon := Sin (deltaLon / 2) in
  let a := sinDeltaLat * sinDeltaLat +
           Cos lat1Rad * Cos lat2Rad * sinDeltaLon * sinDeltaLon in
  let c := 2 * Atan2 (Sqrt a) (Sqrt (1 - a)) in
  earthRadius * c.

(** The value [a] of [calculateDistance], whose square root and the
    square root of [1 - a] are handed to [math.Atan2]. *)
Definition haversine_a (lat1 lon1 lat2 lon2 : float) : float :=
  let pi := 3.14159265359 in
  let lat1Rad := lat1 * (pi / 180) in
  let lat2Rad := lat2 * (pi / 180) in
  let deltaLat := (lat2 - lat1) * (pi / 180) in
  let deltaLon := (lon2 - lon1) * (pi / 180) in
  let sinDeltaLat := Sin (deltaLat / 2) in
  let sinDeltaLon := Sin (deltaLon / 2) in
  sinDeltaLat * sinDeltaLat +
  Cos lat1Rad * Cos lat2Rad * sinDeltaLon * sinDeltaLon.

End Trig.
End float64.

(** ** Package [strings] *)

Module strings.

(** [strings.Contains(s, substr)]: [substr] occurs in [s] at some
    offset (byte-wise, as in Go). *)
Fixpoint Contains (s substr : string) : bool :=
  if String.prefix substr s then true
  else match s with
       | EmptyString => false
       | String _ s' => Contains s' substr
       end.

(** The restriction of [strings.ToLower] to ASCII text: the letters
    [A]..[Z] are mapped to [a]..[z].  Used by the examples. *)
Definition lowerASCII (c : ascii) : ascii :=
  let n := nat_of_ascii c in
  if ((65 <=? n) && (n <=? 90))%nat then ascii_of_nat (n + 32) else c.

Fixpoint ToLowerASCII (s : string) : string :=
  match s with
  | EmptyString => EmptyString
  | String c s' => String (lowerASCII c) (ToLowerASCII s')
  end.

(** ASCII white space as [strings.TrimSpace] reads it:
    tab, line feed, vertical tab, form feed, carriage return and space. *)
Definition isSpaceASCII (c : ascii) : bool :=
  let n := nat_of_ascii c in
  ((9 <=? n) && (n <=? 13) || (n =? 32))%nat.

Fixpoint trimLeftASCII (s : string) : string :=
  match s with
  | EmptyString => EmptyString
  | String c s' => if isSpaceASCII c then trimLeftASCII s' else s
  end.

Fixpoint trimRightASCII (s : string) : string :=
  match s with
  | EmptyString => EmptyString
  | String c s' =>
      match trimRightASCII s' with
      | EmptyString => if isSpaceASCII c then EmptyString else String c EmptyString
      | t => String c t
      end
  end.

(** The restriction of [strings.TrimSpace] to ASCII text.  Used by the
    examples. *)
Definition TrimSpaceASCII (s : string) : string :=
  trimRightASCII (trimLeftASCII s).

End strings.

(** [fmt.Sprintf("%d", n)] for a length. *)
Definition Sprintf_d (n : nat) : string :=
  NilEmpty.string_of_uint (Nat.to_uint n).

(** [uint(x)] for a [float64] [x]: the integer part (Go defines the
    conversion for values in the range of [uint] only). *)
Definition uint (x : R) : N := Z.to_N (Int_part x).

(** ** Data model *)

(** *** Types of package [googlemaps.github.io/maps] (the fields the
    service reads or writes) *)

Module LatLng.
Record t := { Lat : R; Lng : R }.
End LatLng.

Module AddressComponent.
Record t := { LongName : string; ShortName : string; Types : list string }.
End AddressComponent.

Module AddressGeometry.
Record t := { Location : LatLng.t }.
End AddressGeometry.

Module GeocodingResult.
Record t := {
  AddressComponents : list AddressComponent.t;
  FormattedAddress : string;
  Geometry : AddressGeometry.t
}.
End GeocodingResult.

Inductive Component : Set :=
| ComponentRoute
| ComponentLocality
| ComponentAdministrativeArea
| ComponentPostalCode
| ComponentCountry.

Module GeocodingRequest.
Record t := {
  Address : string;
  Components : list (Component * string)
}.
End GeocodingRequest.

Module NearbySearchRequest.
Record t := {
  Location : LatLng.t;
  Radius : N;
  Type_ : string
}.
End NearbySearchRequest.

Module PlacesSearchResult.
Record t := {
  Name : string;
  Vicinity : string;
  PlaceID : string;
  Types : list string;
  Rating : R;
  UserRatingsTotal : Z;
  Geometry : AddressGeometry.t
}.
End PlacesSearchResult.

Module PlacesSearchResponse.
Record t := { Results : list PlacesSearchResult.t }.
End PlacesSearchResponse.

(** *** Response structures of [main.go] *)

Module Details.
Record t := {
  PinCode : string;
  City : string;
  State : string;
  Country : string;
  FormattedAddress : string
}.
End Details.

Module ValidationResponse.
Record t := {
  Valid : bool;
  Message : string;
  Suggestions : list string;
  Details : option Details.t
}.
End ValidationResponse.

Module Location.
Record t := { Lat : R; Lng : R }.
End Location.

Module Landmark.
Record t := {
  Name : string;
  Address : string;
  Distance : R;
  PlaceID : string;
  Types : list string;
  Location : Location.t;
  Rating : R;
  UserRatings : Z;
  PopScore : R
}.
End Landmark.

Module LandmarksResponse.
Record t := {
  Success : bool;
  Message : string;
  Landmarks : list Landmark.t;
  Location : Location.t
}.
End LandmarksResponse.

(** The type [scoredLandmark] local to [GetNearbyLandmarks]. *)
Module scoredLandmark.
Record t := { landmark : Landmark.t; score : R }.
End scoredLandmark.

(** ** The Maps client and the effects of the service *)

(** A call of the service to the Maps client. *)
Inductive Call : Type :=
| GeocodeCall (req : GeocodingRequest.t)
| NearbySearchCall (req : NearbySearchRequest.t).

Definition Trace : Type := list Call.

(** Go's [(value, error)] results: a value, or a hard error. *)
Inductive result (A : Type) : Type :=
| Ok (a : A)
| Err (err : string).
Arguments Ok {A} a.
Arguments Err {A} err.

(** [maps.Client]: what each call answers, given the calls made so far. *)
Record Client := {
  Geocode : Trace -> GeocodingRequest.t -> result (list GeocodingResult.t);
  NearbySearch : Trace -> NearbySearchRequest.t -> result PlacesSearchResponse.t
}.

Record LocationService := { mapsClient : Client }.

(** A computation of the service: from the trace of the calls made so
    far to a result and the trace extended by the calls it made. *)
Definition M (A : Type) : Type := Trace -> result A * Trace.

Definition ret {A} (a : A) : M A := fun tr => (Ok a, tr).

Definition bind {A B} (m : M A) (k : A -> M B) : M B :=
  fun tr =>
    match m tr with
    | (Ok a, tr') => k a tr'
    | (Err err, tr') => (Err err, tr')
    end.

Notation "x <- m ;; k" := (bind m (fun x => k))
  (at level 61, m at next level, right associativity).

(** [v, err := call; if err != nil { return nil, fmt.Errorf(prefix + "%v", err) }] *)
Definition orErrorf {A} (m : M A) (prefix : string) : M A :=
  fun tr =>
    match m tr with
    | (Ok a, tr') => (Ok a, tr')
    | (Err err, tr') => (Err (prefix ++ err)%string, tr')
    end.

Definition callGeocode (s : LocationService) (req : GeocodingRequest.t)
  : M (list GeocodingResult.t) :=
  fun tr => (Geocode (mapsClient s) tr req, tr ++ [GeocodeCall req]).

Definition callNearbySearch (s : LocationService) (req : NearbySearchRequest.t)
  : M PlacesSearchResponse.t :=
  fun tr => (NearbySearch (mapsClient s) tr req, tr ++ [NearbySearchCall req]).

(** *** Request structures of [main.go] *)

Module ValidatePinCodeRequest.
Record t := { PinCode : string; City : string }.
End ValidatePinCodeRequest.

Module GetLandmarksRequest.
Record t := {
  PinCode : string;
  City : string;
  Address : string;
  Radius : R
}.
End GetLandmarksRequest.

(** ** Package [net/http]: headers, requests and the response writer *)

(** [http.Header], with the keys in their canonical form. *)
Module Header.

Definition t : Type := list (string * string).

Definition Del (key : string) (h : t) : t :=
  filter (fun kv => negb (fst kv =? key)%string) h.

Definition Set_ (key value : string) (h : t) : t := (key, value) :: Del key h.

(** [h.Get(key)]: the value of the header, or the empty string. *)
Fixpoint Get (key : string) (h : t) : string :=
  match h with
  | [] => EmptyString
  | (k, v) :: h' => if (k =? key)%string then v else Get key h'
  end.

End Header.

(** The fields of [http.Request] that the handlers read. *)
Module Request.
Record t := {
  Method : string;
  RequestURI : string;
  RemoteAddr : string;
  Body : string
}.
End Request.

(** [http.ResponseWriter]: the header map, the status code once it is
    written together with the headers sent with it, and the body written
    so far. *)
Module ResponseWriter.

Record t := {
  Header : Header.t;
  Status : option nat;
  SentHeader : Header.t;
  Body : string
}.

(** A writer nothing has been written to. *)
Definition fresh : t :=
  {| Header := []; Status := None; SentHeader := []; Body := "" |}.

(** [w.WriteHeader(code)]: the first call sends the status code and the
    headers; a later call is ignored. *)
Definition WriteHeader (code : nat) (w : t) : t :=
  match Status w with
  | Some _ => w
  | None =>
      {| Header := Header w; Status := Some code; SentHeader := Header w;
         Body := Body w |}
  end.

(** [w.Header().Set(key, value)] and [w.Header().Del(key)]. *)
Definition SetHeader (key value : string) (w : t) : t :=
  {| Header := Header.Set_ key value (Header w); Status := Status w;
     SentHeader := SentHeader w; Body := Body w |}.

Definition DelHeader (key : string) (w : t) : t :=
  {| Header := Header.Del key (Header w); Status := Status w;
     SentHeader := SentHeader w; Body := Body w |}.

(** [w.Write(data)]: writes the header with status 200 first when no
    status has been written. *)
Definition Write (data : string) (w : t) : t :=
  let w := WriteHeader 200 w in
  {| Header := Header w; Status := Status w; SentHeader := SentHeader w;
     Body := (Body w ++ data)%string |}.

End ResponseWriter.

Module http.

Definition StatusOK : nat := 200.
Definition StatusBadRequest : nat := 400.
Definition StatusInternalServerError : nat := 500.

Definition newline : string := String (ascii_of_nat 10) EmptyString.

(** [http.Error(w, error, code)]. *)
Definition Error (w : ResponseWriter.t) (error : string) (code : nat)
    : ResponseWriter.t :=
  let w := ResponseWriter.DelHeader "Content-Length" w in
  let w := ResponseWriter.SetHeader "Content-Type" "text/plain; charset=utf-8" w in
  let w := ResponseWriter.SetHeader "X-Content-Type-Options" "nosniff" w in
  let w := ResponseWriter.WriteHeader code w in
  ResponseWriter.Write (error ++ newline) w.

(** What the server sends when the handler has returned: status 200 and
    the headers, unless the handler has written a status itself. *)
Definition finish (w : ResponseWriter.t) : ResponseWriter.t :=
  ResponseWriter.WriteHeader StatusOK w.

End http.

(** [json.NewEncoder(w).Encode(v)]: the encoding of [v] and a newline;
    nothing is written when [v] cannot be encoded. *)
Definition jsonEncode {A : Type} (marshal : A -> option string) (v : A)
    (w : ResponseWriter.t) : ResponseWriter.t :=
  match marshal v with
  | Some data => ResponseWriter.Write (data ++ http.newline) w
  | None => w
  end.

(** What a request can change besides its response: the calls made to
    the Maps client and the lines logged. *)
Record ServerState := { calls : Trace; logged : list string }.

(** [http.Handler], as the function [ServeHTTP(w, r)]. *)
Definition Handler : Type :=
  ResponseWriter.t -> Request.t -> ServerState -> ResponseWriter.t * ServerState.

(** ** The earlier revision of the service (the second Go file) *)

Module Legacy.

Module Landmark.
Record t := {
  Name : string;
  Address : string;
  Distance : R;
  PlaceID : string;
  Types : list string;
  Location : Location.t
}.
End Landmark.

Module LandmarksResponse.
Record t := {
  Success : bool;
  Message : string;
  Landmarks : list Landmark.t;
  Location : Location.t
}.
End LandmarksResponse.

(** [calculateDistance] of the earlier revision. *)
Definition calculateDistance (lat1 lon1 lat2 lon2 : R) : R :=
  let lat1Rad := lat1 * (3.14159265359 / 180) in
  let lat2Rad := lat2 * (3.14159265359 / 180) in
  let deltaLat := (lat2 - lat1) * (3.14159265359 / 180) in
  let deltaLon := (lon2 - lon1) * (3.14159265359 / 180) in
  let a := (deltaLat / 2) * (deltaLat / 2) +
           lat1Rad * lat2Rad * (deltaLon / 2) * (deltaLon / 2) in
  let c := 2 * a in
  earthRadius * c.

End Legacy.

(** ** [ValidatePinCodeWithCity] *)

(** The local variables [foundCity], [foundState], [foundCountry] and
    [formattedAddress] of [ValidatePinCodeWithCity]. *)
Record Found := {
  foundCity : string;
  foundState : string;
  foundCountry : string;
  formattedAddress : string
}.

Definition noneFound : Found :=
  {| foundCity := ""; foundState := ""; foundCountry := "";
     formattedAddress := "" |}.

(** ** The contract of [sort.Slice] *)

(** What package [sort] asks of [less]: a strict weak ordering
    (irreflexive, transitive, and "neither before the other" is
    transitive too). *)
Definition StrictWeakOrder {A : Type} (less : A -> A -> bool) : Prop :=
  (forall a, less a a = false) /\
  (forall a b c, less a b = true -> less b c = true -> less a c = true) /\
  (forall a b c, less a b = false -> less b c = false -> less a c = false).

(** The slice is sorted by [less]: no element must sort before the one
    in front of it. *)
Definition SortedBy {A : Type} (less : A -> A -> bool) (x : list A) : Prop :=
  Sorted (fun a b => less b a = false) x.

(** Insertion sort, one implementation of the contract (package [sort]
    uses it for short slices).  Used by the examples. *)
Fixpoint insertSorted {A : Type} (less : A -> A -> bool) (a : A)
    (x : list A) : list A :=
  match x with
  | [] => [a]
  | b :: x' => if less a b then a :: b :: x' else b :: insertSorted less a x'
  end.

Definition insertionSort (A : Type) (x : list A) (less : A -> A -> bool)
    : list A :=
  fold_right (insertSorted less) [] x.

(** The last element of a list that satisfies [p]. *)
Fixpoint findLast {A : Type} (p : A -> bool) (l : list A) : option A :=
  match l with
  | [] => None
  | a :: l' =>
      match findLast p l' with
      | Some b => Some b
      | None => if p a then Some a else None
      end
  end.

(** The component carries one of the type tags [tags]. *)
Definition hasType (tags : list string) (component : AddressComponent.t)
    : bool :=
  existsb (fun typ => existsb (String.eqb typ) tags)
    (AddressComponent.Types component).

Definition cityTags : list string :=
  ["locality"; "administrative_area_level_2"]%string.
Definition stateTags : list string := ["administrative_area_level_1"%string].
Definition countryTags : list string := ["country"%string].

Section Service.

(** [strings.ToLower] and [strings.TrimSpace]. *)
Variable ToLower : string -> string.
Variable TrimSpace : string -> string.

(** [sort.Slice(x, less)], with [less] read on the elements it compares:
    [less(i, j)] of the source is [less x[i] x[j]]. *)
Variable sort_Slice : forall A : Type, list A -> (A -> A -> bool) -> list A.

(** The [switch typ] statement in the loop over [component.Types]. *)
Definition switchType (component : AddressComponent.t) (f : Found)
    (typ : string) : Found :=
  if ((typ =? "locality") || (typ =? "administrative_area_level_2"))%string then
    if (foundCity f =? "")%string then
      {| foundCity := ToLower (AddressComponent.LongName component);
         foundState := foundState f;
         foundCountry := foundCountry f;
         formattedAddress := formattedAddress f |}
    else f
  else if (typ =? "administrative_area_level_1")%string then
    {| foundCity := foundCity f;
       foundState := AddressComponent.LongName component;
       foundCountry := foundCountry f;
       formattedAddress := formattedAddress f |}
  else if (typ =? "country")%string then
    {| foundCity := foundCity f;
       foundState := foundState f;
       foundCountry := AddressComponent.LongName component;
       formattedAddress := formattedAddress f |}
  else f.

(** The loop over [result.AddressComponents] and, inside it, over
    [component.Types]. *)
Definition scanComponents (components : list AddressComponent.t) (f : Found)
    : Found :=
  fold_left
    (fun f component =>
       fold_left (switchType component) (AddressComponent.Types component) f)
    components f.

(** The first part of the body of the loop over [results]: the
    assignment of [formattedAddress] and the scan of the components. *)
Definition scanResult (result : GeocodingResult.t) (f : Found) : Found :=
  scanComponents (GeocodingResult.AddressComponents result)
    {| foundCity := foundCity f;
       foundState := foundState f;
       foundCountry := foundCountry f;
       formattedAddress := GeocodingResult.FormattedAddress result |}.

(** The test "the provided city matches". *)
Definition cityMatches (foundCity city : string) : bool :=
  strings.Contains foundCity city || strings.Contains city foundCity.

Definition detailsOf (pinCode : string) (f : Found) : Details.t :=
  {| Details.PinCode := pinCode;
     Details.City := foundCity f;
     Details.State := foundState f;
     Details.Country := foundCountry f;
     Details.FormattedAddress := formattedAddress f |}.

(** The loop over [results], with its early return on a match, and the
    statements after the loop. *)
Fixpoint resultsLoop (pinCode city : string)
    (results : list GeocodingResult.t) (f : Found) : ValidationResponse.t :=
  match results with
  | result :: results' =>
      let f := scanResult result f in
      if cityMatches (foundCity f) city then
        {| ValidationResponse.Valid := true;
           ValidationResponse.Message := "PIN code and city match successfully";
           ValidationResponse.Suggestions := [];
           ValidationResponse.Details := Some (detailsOf pinCode f) |}
      else resultsLoop pinCode city results' f
  | [] =>
      let suggestions := [] in
      let suggestions :=
        if negb (foundCity f =? "")%string
        then suggestions ++ [foundCity f] else suggestions in
      {| ValidationResponse.Valid := false;
         ValidationResponse.Message :=
           ("PIN code " ++ pinCode ++ " does not belong to " ++ city)%string;
         ValidationResponse.Suggestions := suggestions;
         ValidationResponse.Details := Some (detailsOf pinCode f) |}
  end.

Definition ValidatePinCodeWithCity (s : LocationService)
    (pinCode city : string) : M ValidationResponse.t :=
  let pinCode := TrimSpace pinCode in
  let city := ToLower (TrimSpace city) in
  if ((pinCode =? "") || (city =? ""))%string then
    ret {| ValidationResponse.Valid := false;
           ValidationResponse.Message := "PIN code and city are required";
           ValidationResponse.Suggestions := [];
           ValidationResponse.Details := None |}
  else
    let geocodeReq :=
      {| GeocodingRequest.Address := pinCode;
         GeocodingRequest.Components := [(ComponentPostalCode, pinCode)] |} in
    results <- orErrorf (callGeocode s geocodeReq) "geocoding failed: " ;;
    if (List.length results =? 0)%nat then
      ret {| ValidationResponse.Valid := false;
             ValidationResponse.Message := "Invalid PIN code: No location found";
             ValidationResponse.Suggestions := [];
             ValidationResponse.Details := None |}
    else ret (resultsLoop pinCode city results noneFound).

(** *** Notions used to state the properties of the validation *)

(** The values found after all of [results] have been scanned. *)
Definition scanResults (results : list GeocodingResult.t) (f : Found) : Found :=
  fold_left (fun f result => scanResult result f) results f.

Definition longNameOf (component : option AddressComponent.t) : string :=
  match component with
  | Some c => AddressComponent.LongName c
  | None => EmptyString
  end.

Definition lowerNameOf (component : option AddressComponent.t) : string :=
  match component with
  | Some c => ToLower (AddressComponent.LongName c)
  | None => EmptyString
  end.

(** The specification's reading of the extraction from one result: the
    first component of each kind wins. *)
Definition firstMatchWins (result : GeocodingResult.t) (f : Found) : Prop :=
  let components := GeocodingResult.AddressComponents result in
  foundCity f = lowerNameOf (find (hasType cityTags) components) /\
  foundState f = longNameOf (find (hasType stateTags) components) /\
  foundCountry f = longNameOf (find (hasType countryTags) components).

(** A component that can set the city: it carries a city tag and its
    lower-cased long name is not empty. *)
Definition namesCity (component : AddressComponent.t) : bool :=
  hasType cityTags component &&
  negb (ToLower (AddressComponent.LongName component) =? "")%string.

(** The geocoding request of the validation. *)
Definition validationRequest (pinCode : string) : GeocodingRequest.t :=
  {| GeocodingRequest.Address := TrimSpace pinCode;
     GeocodingRequest.Components :=
       [(ComponentPostalCode, TrimSpace pinCode)] |}.

(** The city that one result yields when it is scanned on its own. *)
Definition cityOf (result : GeocodingResult.t) : string :=
  foundCity (scanResult result noneFound).

(** The specification's reading of the suggestions after a mismatch:
    the extracted city seen last, that is the city of the last result
    that yields one, as a one-element list, and the empty list when no
    result yields a city. *)
Definition lastSeenCity (results : list GeocodingResult.t) : string :=
  fold_left
    (fun seen result =>
       if (cityOf result =? "")%string then seen else cityOf result)
    results EmptyString.

Definition suggestsLastSeenCity (results : list GeocodingResult.t)
    (resp : ValidationResponse.t) : Prop :=
  ValidationResponse.Valid resp = false /\
  ValidationResponse.Suggestions resp =
    if (lastSeenCity results =? "")%string then []
    else [lastSeenCity results].

(** The response after the loop, when no result matched. *)
Definition mismatchResponse (pinCode city : string) (f : Found)
    : ValidationResponse.t :=
  {| ValidationResponse.Valid := false;
     ValidationResponse.Message :=
       ("PIN code " ++ pinCode ++ " does not belong to " ++ city)%string;
     ValidationResponse.Suggestions :=
       if (foundCity f =? "")%string then [] else [foundCity f];
     ValidationResponse.Details := Some (detailsOf pinCode f) |}.

(** ** [GetNearbyLandmarks] *)

(** A soft failure: [&LandmarksResponse{Success: false, Message: message}]. *)
Definition softFailure (message : string) : LandmarksResponse.t :=
  {| LandmarksResponse.Success := false;
     LandmarksResponse.Message := message;
     LandmarksResponse.Landmarks := [];
     LandmarksResponse.Location := {| Location.Lat := 0; Location.Lng := 0 |} |}.

(** The variable [distance] of the loop over [nearbyResults.Results]. *)
Definition distanceTo (location : LatLng.t) (place : PlacesSearchResult.t) : R :=
  let placeLocation :=
    AddressGeometry.Location (PlacesSearchResult.Geometry place) in
  calculateDistance (LatLng.Lat location) (LatLng.Lng location)
    (LatLng.Lat placeLocation) (LatLng.Lng placeLocation).

(** The test before [continue]: the place is too close or has no
    reviews. *)
Definition skipped (location : LatLng.t) (place : PlacesSearchResult.t) : bool :=
  Rltb (distanceTo location place) 10 ||
  (PlacesSearchResult.UserRatingsTotal place =? 0)%Z.

(** The element appended to [scoredLandmarks] for a place that is not
    skipped. *)
Definition scoredPlace (location : LatLng.t) (place : PlacesSearchResult.t)
    : scoredLandmark.t :=
  let placeLocation :=
    AddressGeometry.Location (PlacesSearchResult.Geometry place) in
  let distance := distanceTo location place in
  let popScore :=
    popScore (PlacesSearchResult.Rating place)
      (PlacesSearchResult.UserRatingsTotal place) distance in
  let landmark :=
    {| Landmark.Name := PlacesSearchResult.Name place;
       Landmark.Address := PlacesSearchResult.Vicinity place;
       Landmark.Distance := distance;
       Landmark.PlaceID := PlacesSearchResult.PlaceID place;
       Landmark.Types := PlacesSearchResult.Types place;
       Landmark.Rating := PlacesSearchResult.Rating place;
       Landmark.UserRatings := PlacesSearchResult.UserRatingsTotal place;
       Landmark.PopScore := popScore;
       Landmark.Location :=
         {| Location.Lat := LatLng.Lat placeLocation;
            Location.Lng := LatLng.Lng placeLocation |} |} in
  {| scoredLandmark.landmark := landmark;
     scoredLandmark.score := popScore |}.

(** The body of the loop over [nearbyResults.Results]: one place is
    skipped, or scored and appended to [scoredLandmarks]. *)
Definition scorePlace (location : LatLng.t)
    (scoredLandmarks : list scoredLandmark.t) (place : PlacesSearchResult.t)
    : list scoredLandmark.t :=
  if skipped location place then scoredLandmarks
  else scoredLandmarks ++ [scoredPlace location place].

Definition scorePlaces (location : LatLng.t)
    (places : list PlacesSearchResult.t) : list scoredLandmark.t :=
  fold_left (scorePlace location) places [].

(** The comparison handed to [sort.Slice]: highest score first. *)
Definition byScore (a b : scoredLandmark.t) : bool :=
  Rgtb (scoredLandmark.score a) (scoredLandmark.score b).

(** Sorting and the selection of the top landmarks (up to 5). *)
Definition topLandmarks (scoredLandmarks : list scoredLandmark.t)
    : list Landmark.t :=
  let scoredLandmarks := sort_Slice _ scoredLandmarks byScore in
  let maxLandmarks := 5%nat in
  let maxLandmarks :=
    if (List.length scoredLandmarks <? maxLandmarks)%nat
    then List.length scoredLandmarks else maxLandmarks in
  map scoredLandmark.landmark (firstn maxLandmarks scoredLandmarks).

Definition foundMessage (landmarks : list Landmark.t)
    (locationAddress : string) : string :=
  let message :=
    ("Found " ++ Sprintf_d (List.length landmarks) ++ " landmarks near "
       ++ locationAddress)%string in
  if (List.length landmarks =? 0)%nat then
    "No landmarks found in the specified area. Try increasing the search radius."%string
  else message.

(** The request of the nearby search, with the default radius. *)
Definition nearbyRequest (location : LatLng.t) (radius : R)
    : NearbySearchRequest.t :=
  let radius := if Reqb radius 0 then 1000 else radius in
  {| NearbySearchRequest.Location := location;
     NearbySearchRequest.Radius := uint radius;
     NearbySearchRequest.Type_ := "point_of_interest" |}.

(** Scoring, sorting and selection of the places found, and the
    response that reports them. *)
Definition landmarksFound (location : LatLng.t) (locationAddress : string)
    (places : list PlacesSearchResult.t) : LandmarksResponse.t :=
  let scoredLandmarks := scorePlaces location places in
  let landmarks := topLandmarks scoredLandmarks in
  {| LandmarksResponse.Success := true;
     LandmarksResponse.Message := foundMessage landmarks locationAddress;
     LandmarksResponse.Landmarks := landmarks;
     LandmarksResponse.Location :=
       {| Location.Lat := LatLng.Lat location;
          Location.Lng := LatLng.Lng location |} |}.

(** The part of [GetNearbyLandmarks] after the location is resolved:
    the nearby search, the scoring loop, the sort and the response. *)
Definition searchLandmarks (s : LocationService) (location : LatLng.t)
    (locationAddress : string) (radius : R) : M LandmarksResponse.t :=
  nearbyResults <-
    orErrorf (callNearbySearch s (nearbyRequest location radius))
      "nearby search failed: " ;;
  ret (landmarksFound location locationAddress
         (PlacesSearchResponse.Results nearbyResults)).

Definition GetNearbyLandmarks (s : LocationService)
    (pinCode city address : string) (radius : R) : M LandmarksResponse.t :=
  if negb (address =? "")%string then
    let locationAddress := TrimSpace address in
    let geocodeReq :=
      {| GeocodingRequest.Address := locationAddress;
         GeocodingRequest.Components := [] |} in
    geocodeResults <-
      orErrorf (callGeocode s geocodeReq) "geocoding address failed: " ;;
    match geocodeResults with
    | [] => ret (softFailure "Could not find the specified address")
    | first :: _ =>
        searchLandmarks s
          (AddressGeometry.Location (GeocodingResult.Geometry first))
          (GeocodingResult.FormattedAddress first) radius
    end
  else if (negb (pinCode =? "") && negb (city =? ""))%string then
    validation <- ValidatePinCodeWithCity s pinCode city ;;
    if negb (ValidationResponse.Valid validation) then
      ret (softFailure (ValidationResponse.Message validation))
    else
      let geocodeReq :=
        {| GeocodingRequest.Address := (pinCode ++ ", " ++ city)%string;
           GeocodingRequest.Components := [] |} in
      geocodeResults <-
        orErrorf (callGeocode s geocodeReq) "geocoding failed: " ;;
      match geocodeResults with
      | [] => ret (softFailure "Could not find location coordinates")
      | first :: _ =>
          searchLandmarks s
            (AddressGeometry.Location (GeocodingResult.Geometry first))
            (GeocodingResult.FormattedAddress first) radius
      end
  else
    ret (softFailure
           "Please provide either an address OR both pin code and city").

(** ** HTTP handlers and middleware *)

(** [json.NewDecoder(r.Body).Decode(&req)] for the two request
    structures ([None] for a decoding error), and the encodings that
    [json.NewEncoder(w).Encode] writes for the two response structures. *)
Variable decodeValidatePinCodeRequest : string -> option ValidatePinCodeRequest.t.
Variable decodeGetLandmarksRequest : string -> option GetLandmarksRequest.t.
Variable marshalValidationResponse : ValidationResponse.t -> option string.
Variable marshalLandmarksResponse : LandmarksResponse.t -> option string.

(** The router that [main] builds with [mux.NewRouter]. *)
Variable router : Handler.

Definition handleValidatePinCode (s : LocationService) : Handler :=
  fun w r st =>
    match decodeValidatePinCodeRequest (Request.Body r) with
    | None => (http.Error w "Invalid request body" http.StatusBadRequest, st)
    | Some req =>
        match ValidatePinCodeWithCity s (ValidatePinCodeRequest.PinCode req)
                (ValidatePinCodeRequest.City req) (calls st) with
        | (Err err, tr) =>
            (http.Error w ("Validation failed: " ++ err)%string
               http.StatusInternalServerError,
             {| calls := tr; logged := logged st |})
        | (Ok response, tr) =>
            let w := ResponseWriter.SetHeader "Content-Type" "application/json" w in
            (jsonEncode marshalValidationResponse response w,
             {| calls := tr; logged := logged st |})
        end
    end.

Definition handleGetLandmarks (s : LocationService) : Handler :=
  fun w r st =>
    match decodeGetLandmarksRequest (Request.Body r) with
    | None => (http.Error w "Invalid request body" http.StatusBadRequest, st)
    | Some req =>
        match GetNearbyLandmarks s (GetLandmarksRequest.PinCode req)
                (GetLandmarksRequest.City req) (GetLandmarksRequest.Address req)
                (GetLandmarksRequest.Radius req) (calls st) with
        | (Err err, tr) =>
            (http.Error w ("Failed to get landmarks: " ++ err)%string
               http.StatusInternalServerError,
             {| calls := tr; logged := logged st |})
        | (Ok response, tr) =>
            let w := ResponseWriter.SetHeader "Content-Type" "application/json" w in
            (jsonEncode marshalLandmarksResponse response w,
             {| calls := tr; logged := logged st |})
        end
    end.

Definition loggingMiddleware (next : Handler) : Handler :=
  fun w r st =>
    let line :=
      ("[" ++ Request.Method r ++ "] " ++ Request.RequestURI r ++ " "
         ++ Request.RemoteAddr r)%string in
    next w r {| calls := calls st; logged := logged st ++ [line] |}.

Definition corsMiddleware (next : Handler) : Handler :=
  fun w r st =>
    let w := ResponseWriter.SetHeader "Access-Control-Allow-Origin" "*" w in
    let w :=
      ResponseWriter.SetHeader "Access-Control-Allow-Methods"
        "POST, GET, OPTIONS" w in
    let w :=
      ResponseWriter.SetHeader "Access-Control-Allow-Headers" "Content-Type" w in
    if (Request.Method r =? "OPTIONS")%string then
      (ResponseWriter.WriteHeader http.StatusOK w, st)
    else next w r st.

(** The handler that [main] serves: [loggingMiddleware(corsMiddleware(router))]. *)
Definition mainHandler : Handler := loggingMiddleware (corsMiddleware router).

(** The three headers that [corsMiddleware] sets are among the headers
    sent with the response. *)
Definition corsHeadersSent (w : ResponseWriter.t) : Prop :=
  Header.Get "Access-Control-Allow-Origin" (ResponseWriter.SentHeader w)
    = "*"%string /\
  Header.Get "Access-Control-Allow-Methods" (ResponseWriter.SentHeader w)
    = "POST, GET, OPTIONS"%string /\
  Header.Get "Access-Control-Allow-Headers" (ResponseWriter.SentHeader w)
    = "Content-Type"%string.

(** ** [GetNearbyLandmarks] of the earlier revision *)

Definition legacyLandmark (location : LatLng.t) (place : PlacesSearchResult.t)
    : Legacy.Landmark.t :=
  let placeLocation :=
    AddressGeometry.Location (PlacesSearchResult.Geometry place) in
  let distance :=
    Legacy.calculateDistance (LatLng.Lat location) (LatLng.Lng location)
      (LatLng.Lat placeLocation) (LatLng.Lng placeLocation) in
  {| Legacy.Landmark.Name := PlacesSearchResult.Name place;
     Legacy.Landmark.Address := PlacesSearchResult.Vicinity place;
     Legacy.Landmark.Distance := distance;
     Legacy.Landmark.PlaceID := PlacesSearchResult.PlaceID place;
     Legacy.Landmark.Types := PlacesSearchResult.Types place;
     Legacy.Landmark.Location :=
       {| Location.Lat := LatLng.Lat placeLocation;
          Location.Lng := LatLng.Lng placeLocation |} |}.

(** The loop [for i, place := range nearbyResults.Results] with its
    [break] at [i >= 3]. *)
Fixpoint legacyLoop (location : LatLng.t) (i : nat)
    (places : list PlacesSearchResult.t) (landmarks : list Legacy.Landmark.t)
    : list Legacy.Landmark.t :=
  match places with
  | [] => landmarks
  | place :: places' =>
      if (3 <=? i)%nat then landmarks
      else legacyLoop location (S i) places'
             (landmarks ++ [legacyLandmark location place])
  end.

Definition legacySoftFailure (message : string) : Legacy.LandmarksResponse.t :=
  {| Legacy.LandmarksResponse.Success := false;
     Legacy.LandmarksResponse.Message := message;
     Legacy.LandmarksResponse.Landmarks := [];
     Legacy.LandmarksResponse.Location :=
       {| Location.Lat := 0; Location.Lng := 0 |} |}.

Definition legacyGetNearbyLandmarks (s : LocationService)
    (pinCode city : string) (radius : R) : M Legacy.LandmarksResponse.t :=
  validation <- ValidatePinCodeWithCity s pinCode city ;;
  if negb (ValidationResponse.Valid validation) then
    ret (legacySoftFailure (ValidationResponse.Message validation))
  else
    let geocodeReq :=
      {| GeocodingRequest.Address := (pinCode ++ ", " ++ city)%string;
         GeocodingRequest.Components := [] |} in
    geocodeResults <- orErrorf (callGeocode s geocodeReq) "geocoding failed: " ;;
    match geocodeResults with
    | [] => ret (legacySoftFailure "Could not find location coordinates")
    | first :: _ =>
        let location :=
          AddressGeometry.Location (GeocodingResult.Geometry first) in
        nearbyResults <-
          orErrorf (callNearbySearch s (nearbyRequest location radius))
            "nearby search failed: " ;;
        let landmarks :=
          legacyLoop location 0 (PlacesSearchResponse.Results nearbyResults) [] in
        ret {| Legacy.LandmarksResponse.Success := true;
               Legacy.LandmarksResponse.Message := "Landmarks fetched successfully";
               Legacy.LandmarksResponse.Landmarks := landmarks;
               Legacy.LandmarksResponse.Location :=
                 {| Location.Lat := LatLng.Lat location;
                    Location.Lng := LatLng.Lng location |} |}
    end.

(** *** Notions used to state the properties of the ranking *)

(** A run of the service from trace [tr] to trace [tr'] ended with a
    nearby search around [location] that answered [places]. *)
Definition nearbyCandidates (s : LocationService) (tr tr' : Trace)
    (location : LatLng.t) (places : list PlacesSearchResult.t) : Prop :=
  exists calls req nearbyResults,
    tr' = tr ++ calls ++ [NearbySearchCall req] /\
    NearbySearch (mapsClient s) (tr ++ calls) req = Ok nearbyResults /\
    location = NearbySearchRequest.Location req /\
    places = PlacesSearchResponse.Results nearbyResults.

(** The candidates that the scoring loop does not skip. *)
Definition survivors (location : LatLng.t) (places : list PlacesSearchResult.t)
    : list PlacesSearchResult.t :=
  filter (fun place => negb (skipped location place)) places.

Definition isGeocodeCall (c : Call) : bool :=
  match c with
  | GeocodeCall _ => true
  | NearbySearchCall _ => false
  end.

(** The Maps client answers every call. *)
Definition clientNeverFails (s : LocationService) : Prop :=
  (forall tr req, exists results, Geocode (mapsClient s) tr req = Ok results) /\
  (forall tr req, exists response,
      NearbySearch (mapsClient s) tr req = Ok response).

(** The run from trace [tr] to trace [tr'] ended with a call that the
    Maps client answered with the error [e]. *)
Definition lastCallFailed (s : LocationService) (tr tr' : Trace) (e : string)
    : Prop :=
  exists calls,
    (exists req,
        tr' = tr ++ calls ++ [GeocodeCall req] /\
        Geocode (mapsClient s) (tr ++ calls) req = Err e) \/
    (exists req,
        tr' = tr ++ calls ++ [NearbySearchCall req] /\
        NearbySearch (mapsClient s) (tr ++ calls) req = Err e).

(** [b] occurs within [a]. *)
Definition within (b a : string) : Prop :=
  exists pre suf, a = (pre ++ b ++ suf)%string.

(** The message for an empty list of landmarks. *)
Definition noLandmarksMessage : string :=
  "No landmarks found in the specified area. Try increasing the search radius.".

(** ** Example data *)

Definition component (name : string) (types : list string)
    : AddressComponent.t :=
  {| AddressComponent.LongName := name;
     AddressComponent.ShortName := name;
     AddressComponent.Types := types |}.

Definition geocoded (components : list AddressComponent.t)
    (address : string) (location : LatLng.t) : GeocodingResult.t :=
  {| GeocodingResult.AddressComponents := components;
     GeocodingResult.FormattedAddress := address;
     GeocodingResult.Geometry := {| AddressGeometry.Location := location |} |}.

Definition placeAt (name : string) (lat lng rating : R) (reviews : Z)
    : PlacesSearchResult.t :=
  {| PlacesSearchResult.Name := name;
     PlacesSearchResult.Vicinity := "Kanpur";
     PlacesSearchResult.PlaceID := name;
     PlacesSearchResult.Types := ["point_of_interest"%string];
     PlacesSearchResult.Rating := rating;
     PlacesSearchResult.UserRatingsTotal := reviews;
     PlacesSearchResult.Geometry :=
       {| AddressGeometry.Location :=
            {| LatLng.Lat := lat; LatLng.Lng := lng |} |} |}.

(** A Maps client that gives the same answers to every request. *)
Definition constantMaps (results : list GeocodingResult.t)
    (places : list PlacesSearchResult.t) : Client :=
  {| Geocode := fun _ _ => Ok results;
     NearbySearch := fun _ _ => Ok {| PlacesSearchResponse.Results := places |} |}.

Definition kanpurLocation : LatLng.t :=
  {| LatLng.Lat := 26.45; LatLng.Lng := 80.33 |}.

Definition kanpurResult : GeocodingResult.t :=
  geocoded
    [component "208001" ["postal_code"%string];
     component "Kanpur" ["locality"; "political"]%string;
     component "Kanpur Nagar" ["administrative_area_level_2"; "political"]%string;
     component "Uttar Pradesh" ["administrative_area_level_1"; "political"]%string;
     component "India" ["country"; "political"]%string]
    "Kanpur, Uttar Pradesh 208001, India" kanpurLocation.

(** Nine candidates: one at the query point, two without reviews, and
    six survivors about 1.1 km to the north, each with 9 reviews. *)
Definition postOffice : PlacesSearchResult.t :=
  placeAt "Post Office" 26.45 80.33 4.5 120.
Definition kiosk : PlacesSearchResult.t := placeAt "Kiosk" 26.46 80.33 0 0.
Definition stall : PlacesSearchResult.t := placeAt "Stall" 26.46 80.33 5 0.
Definition museum : PlacesSearchResult.t := placeAt "Museum" 26.46 80.33 3 9.
Definition temple : PlacesSearchResult.t := placeAt "Temple" 26.46 80.33 5 9.
Definition garage : PlacesSearchResult.t := placeAt "Garage" 26.46 80.33 1 9.
Definition cafe : PlacesSearchResult.t := placeAt "Cafe" 26.46 80.33 4 9.
Definition bank : PlacesSearchResult.t := placeAt "Bank" 26.46 80.33 2 9.
Definition park : PlacesSearchResult.t := placeAt "Park" 26.46 80.33 4.5 9.

Definition kanpurPlaces : list PlacesSearchResult.t :=
  [museum; postOffice; temple; garage; kiosk; cafe; bank; stall; park].

Definition kanpurSurvivors : list PlacesSearchResult.t :=
  [museum; temple; garage; cafe; bank; park].

Definition kanpurService : LocationService :=
  {| mapsClient := constantMaps [kanpurResult] kanpurPlaces |}.

(** An area where no candidate survives. *)
Definition emptyAreaService : LocationService :=
  {| mapsClient := constantMaps [kanpurResult] [postOffice; kiosk] |}.

(** A result with two state components and two country components. *)
Definition twoStatesResult : GeocodingResult.t :=
  geocoded
    [component "Kanpur" ["locality"%string];
     component "Uttar Pradesh" ["administrative_area_level_1"%string];
     component "Kanpur Division" ["administrative_area_level_1"%string];
     component "India" ["country"%string];
     component "Bharat" ["country"%string]]
    "Kanpur, Uttar Pradesh, India" kanpurLocation.

(** A second result for the same PIN code, in another city. *)
Definition lucknowResult : GeocodingResult.t :=
  geocoded
    [component "208001" ["postal_code"%string];
     component "Lucknow" ["locality"; "political"]%string;
     component "Uttar Pradesh" ["administrative_area_level_1"; "political"]%string;
     component "India" ["country"; "political"]%string]
    "Lucknow, Uttar Pradesh 208001, India"
    {| LatLng.Lat := 26.85; LatLng.Lng := 80.95 |}.

Definition twoCitiesService : LocationService :=
  {| mapsClient := constantMaps [kanpurResult; lucknowResult] [] |}.

(** A result without a city component. *)
Definition noCityResult : GeocodingResult.t :=
  geocoded
    [component "208001" ["postal_code"%string];
     component "Uttar Pradesh" ["administrative_area_level_1"; "political"]%string;
     component "India" ["country"; "political"]%string]
    "Uttar Pradesh 208001, India" kanpurLocation.

Definition noCityService : LocationService :=
  {| mapsClient := constantMaps [noCityResult] [] |}.

(** The response of the service for the nine candidates around Kanpur:
    the five survivors with the highest scores, best first. *)
Definition kanpurResponse : LandmarksResponse.t :=
  {| LandmarksResponse.Success := true;
     LandmarksResponse.Message :=
       "Found 5 landmarks near Kanpur, Uttar Pradesh 208001, India";
     LandmarksResponse.Landmarks :=
       map (fun place => scoredLandmark.landmark (scoredPlace kanpurLocation place))
         [temple; park; cafe; museum; bank];
     LandmarksResponse.Location :=
       {| Location.Lat := 26.45; Location.Lng := 80.33 |} |}.

Definition kanpurTrace : Trace :=
  [GeocodeCall {| GeocodingRequest.Address := "Mall Road, Kanpur";
                  GeocodingRequest.Components := [] |};
   NearbySearchCall (nearbyRequest kanpurLocation 500)].

(** A Maps client that is out of quota: every call fails. *)
Definition failingMaps : Client :=
  {| Geocode := fun _ _ => Err "OVER_QUERY_LIMIT";
     NearbySearch := fun _ _ => Err "OVER_QUERY_LIMIT" |}.

Definition offlineService : LocationService := {| mapsClient := failingMaps |}.

(** An area with three candidates, of which two survive. *)
Definition quietAreaService : LocationService :=
  {| mapsClient := constantMaps [kanpurResult] [postOffice; museum; temple] |}.

(** HTTP requests, and stand-ins for the JSON decoder and encoder: a
    decoder that accepts one body, the empty object, which leaves every
    field of the request at its zero value, and encoders that write one
    field. *)
Definition decodeEmptyObject {A : Type} (zero : A) (body : string) : option A :=
  if (body =? "{}")%string then Some zero else None.

Definition zeroValidatePinCodeRequest : ValidatePinCodeRequest.t :=
  {| ValidatePinCodeRequest.PinCode := ""; ValidatePinCodeRequest.City := "" |}.

Definition zeroGetLandmarksRequest : GetLandmarksRequest.t :=
  {| GetLandmarksRequest.PinCode := ""; GetLandmarksRequest.City := "";
     GetLandmarksRequest.Address := ""; GetLandmarksRequest.Radius := 0 |}.

Definition validOnly (response : ValidationResponse.t) : option string :=
  Some (if ValidationResponse.Valid response
        then "{valid:true}" else "{valid:false}")%string.

Definition successOnly (response : LandmarksResponse.t) : option string :=
  Some (if LandmarksResponse.Success response
        then "{success:true}" else "{success:false}")%string.

Definition postRequest (uri body : string) : Request.t :=
  {| Request.Method := "POST"; Request.RequestURI := uri;
     Request.RemoteAddr := "127.0.0.1:50000"; Request.Body := body |}.

Definition preflightRequest : Request.t :=
  {| Request.Method := "OPTIONS"; Request.RequestURI := "/api/get-landmarks";
     Request.RemoteAddr := "127.0.0.1:50000"; Request.Body := "" |}.

(** A server that has made no call and logged no line. *)
Definition idle : ServerState := {| calls := []; logged := [] |}.

(** The run of the earlier revision for PIN code 208001 in Kanpur. *)
Definition legacyKanpurResponse : Legacy.LandmarksResponse.t :=
  {| Legacy.LandmarksResponse.Success := true;
     Legacy.LandmarksResponse.Message := "Landmarks fetched successfully";
     Legacy.LandmarksResponse.Landmarks :=
       map (legacyLandmark kanpurLocation) [museum; postOffice; temple];
     Legacy.LandmarksResponse.Location :=
       {| Location.Lat := 26.45; Location.Lng := 80.33 |} |}.

Definition legacyKanpurTrace : Trace :=
  [GeocodeCall {| GeocodingRequest.Address := "208001";
                  GeocodingRequest.Components :=
                    [(ComponentPostalCode, "208001"%string)] |};
   GeocodeCall {| GeocodingRequest.Address := "208001, Kanpur";
                  GeocodingRequest.Components := [] |};
   NearbySearchCall (nearbyRequest kanpurLocation 500)].

(** * Properties *)

(** ** The distance in exact arithmetic

    What follows holds of [calculateDistance] over the real numbers.  In
    binary64 the value [a] can exceed 1 by rounding, and the code then
    returns NaN: see [calculateDistance_binary64_NaN]. *)

Lemma haversine_a_sym lat1 lon1 lat2 lon2 :
  haversine_a lat1 lon1 lat2 lon2 = haversine_a lat2 lon2 lat1 lon1.
Proof.
  unfold haversine_a, math.Sin, math.Cos; cbv zeta.
  replace ((lat1 - lat2) * (pi / 180) / 2)
    with (- ((lat2 - lat1) * (pi / 180) / 2)) by field.
  replace ((lon1 - lon2) * (pi / 180) / 2)
    with (- ((lon2 - lon1) * (pi / 180) / 2)) by field.
  rewrite !sin_neg. ring.
Qed.

Lemma haversine_a_range lat1 lon1 lat2 lon2 :
  0 <= haversine_a lat1 lon1 lat2 lon2 <= 1.
Proof.
  unfold haversine_a, math.Sin, math.Cos; cbv zeta.
  set (p1 := lat1 * (pi / 180)). set (p2 := lat2 * (pi / 180)).
  set (y := (lon2 - lon1) * (pi / 180) / 2).
  replace ((lat2 - lat1) * (pi / 180) / 2) with ((p2 - p1) / 2)
    by (unfold p1, p2; field).
  assert (Hd : sin ((p2 - p1) / 2) * sin ((p2 - p1) / 2) =
               (1 - cos (p2 - p1)) / 2).
  { replace (p2 - p1) with (2 * ((p2 - p1) / 2)) at 3 by field.
    rewrite cos_2a_sin. field. }
  rewrite Hd, cos_minus.
  pose proof (sin2_cos2 y) as Hy. unfold Rsqr in Hy.
  pose proof (sin2_cos2 p1) as H1. unfold Rsqr in H1.
  pose proof (sin2_cos2 p2) as H2. unfold Rsqr in H2.
  set (s := sin y) in *. set (c := cos y) in *.
  set (s1 := sin p1) in *. set (c1 := cos p1) in *.
  set (s2 := sin p2) in *. set (c2 := cos p2) in *.
  assert (Hs : 0 <= s * s <= 1) by nra.
  set (P := c1 * c2). set (Q := s1 * s2).
  assert (Hp : (P - Q) * (P - Q) + (s1 * c2 + c1 * s2) * (s1 * c2 + c1 * s2) = 1).
  { transitivity ((s1 * s1 + c1 * c1) * (s2 * s2 + c2 * c2));
      [unfold P, Q; ring | rewrite H1, H2; ring]. }
  assert (Hm : (P + Q) * (P + Q) + (s1 * c2 - c1 * s2) * (s1 * c2 - c1 * s2) = 1).
  { transitivity ((s1 * s1 + c1 * c1) * (s2 * s2 + c2 * c2));
      [unfold P, Q; ring | rewrite H1, H2; ring]. }
  assert (HPQ : -1 <= P - Q <= 1).
  { pose proof (Rle_0_sqr (s1 * c2 + c1 * s2)) as Hsq. unfold Rsqr in Hsq. nra. }
  assert (HQP : -1 <= P + Q <= 1).
  { pose proof (Rle_0_sqr (s1 * c2 - c1 * s2)) as Hsq. unfold Rsqr in Hsq. nra. }
  replace (c2 * c1 + s2 * s1) with (P + Q) by (unfold P, Q; ring).
  replace (P * s * s) with (P * (s * s)) by ring.
  set (t := s * s) in *. clearbody t P Q.
  assert (0 <= t * (1 + P - Q)) by (apply Rmult_le_pos; lra).
  assert (0 <= (1 - t) * (1 - P - Q)) by (apply Rmult_le_pos; lra).
  assert (0 <= t * (1 - P + Q)) by (apply Rmult_le_pos; lra).
  assert (0 <= (1 - t) * (1 + P + Q)) by (apply Rmult_le_pos; lra).
  split; lra.
Qed.

Lemma calculateDistance_haversine lat1 lon1 lat2 lon2 :
  calculateDistance lat1 lon1 lat2 lon2 =
  earthRadius *
    (2 * math.Atan2 (math.Sqrt (haversine_a lat1 lon1 lat2 lon2))
           (math.Sqrt (1 - haversine_a lat1 lon1 lat2 lon2))).
Proof. reflexivity. Qed.

Lemma Atan2_nonneg y x : 0 <= y -> 0 <= x -> 0 <= math.Atan2 y x.
Proof.
  intros Hy Hx. unfold math.Atan2, math.Atan.
  destruct (Req_dec_T y 0) as [Hy0 | Hy0].
  - destruct (Rle_dec 0 x); [lra | contradiction].
  - destruct (Req_dec_T x 0) as [Hx0 | Hx0].
    + pose proof PI_RGT_0.
      destruct (Rlt_dec 0 y); lra.
    + cbv zeta. destruct (Rlt_dec x 0); [lra |].
      assert (Hq : 0 < y / x) by (apply Rdiv_lt_0_compat; lra).
      apply atan_increasing in Hq. rewrite atan_0 in Hq. lra.
Qed.

Lemma Atan2_0_1 : math.Atan2 0 1 = 0.
Proof.
  unfold math.Atan2.
  destruct (Req_dec_T 0 0); [| lra].
  destruct (Rle_dec 0 1); [reflexivity | lra].
Qed.

Lemma haversine_a_same lat lon : haversine_a lat lon lat lon = 0.
Proof.
  unfold haversine_a, math.Sin, math.Cos; cbv zeta.
  replace ((lat - lat) * (pi / 180) / 2) with 0 by field.
  replace ((lon - lon) * (pi / 180) / 2) with 0 by field.
  rewrite sin_0. ring.
Qed.

Lemma calculateDistance_sym lat1 lon1 lat2 lon2 :
  calculateDistance lat1 lon1 lat2 lon2 = calculateDistance lat2 lon2 lat1 lon1.
Proof.
  rewrite !calculateDistance_haversine.
  now rewrite (haversine_a_sym lat1 lon1 lat2 lon2).
Qed.

Lemma calculateDistance_same lat lon : calculateDistance lat lon lat lon = 0.
Proof.
  rewrite calculateDistance_haversine, haversine_a_same.
  unfold math.Sqrt. rewrite Rminus_0_r, sqrt_0, sqrt_1, Atan2_0_1. ring.
Qed.

Lemma calculateDistance_nonneg lat1 lon1 lat2 lon2 :
  0 <= calculateDistance lat1 lon1 lat2 lon2.
Proof.
  rewrite calculateDistance_haversine.
  assert (0 <= math.Atan2 (math.Sqrt (haversine_a lat1 lon1 lat2 lon2))
                 (math.Sqrt (1 - haversine_a lat1 lon1 lat2 lon2))).
  { apply Atan2_nonneg; unfold math.Sqrt; apply sqrt_pos. }
  unfold earthRadius. nra.
Qed.

(** Along a meridian the distance is the arc between the two latitudes. *)
Lemma calculateDistance_meridian lat1 lat2 lon :
  0 <= (lat2 - lat1) * (pi / 180) / 2 < PI / 2 ->
  calculateDistance lat1 lon lat2 lon =
  earthRadius * ((lat2 - lat1) * (pi / 180)).
Proof.
  intros [Hlo Hhi]. unfold calculateDistance, math.Sin, math.Cos, math.Sqrt.
  cbv zeta.
  replace ((lon - lon) * (pi / 180) / 2) with 0 by field.
  set (h := (lat2 - lat1) * (pi / 180) / 2) in *.
  rewrite sin_0.
  replace (sin h * sin h + cos (lat1 * (pi / 180)) * cos (lat2 * (pi / 180)) * 0 * 0)
    with (sin h * sin h) by ring.
  assert (Hs : 0 <= sin h) by (apply sin_ge_0; lra).
  assert (Hc : 0 < cos h) by (apply cos_gt_0; lra).
  replace (1 - sin h * sin h) with (cos h * cos h)
    by (pose proof (sin2_cos2 h) as E; unfold Rsqr in E; lra).
  rewrite (sqrt_square _ Hs), (sqrt_square (cos h)) by lra.
  assert (E : math.Atan2 (sin h) (cos h) = h).
  { unfold math.Atan2, math.Atan.
    destruct (Req_dec_T (sin h) 0) as [Hs0 | Hs0].
    - destruct (Rle_dec 0 (cos h)); [| lra].
      destruct (Rle_lt_or_eq_dec _ _ Hlo) as [Hpos | Heq]; [| lra].
      assert (0 < sin h) by (apply sin_gt_0; lra). lra.
    - destruct (Req_dec_T (cos h) 0); [lra |]. cbv zeta.
      destruct (Rlt_dec (cos h) 0); [lra |].
      fold (tan h). apply atan_tan. lra. }
  rewrite E. unfold h. field.
Qed.

(** One degree of latitude is about 111,195 meters. *)
Lemma calculateDistance_one_degree lon :
  111194 < calculateDistance 0 lon 1 lon < 111196.
Proof.
  pose proof PI2_1 as HPI.
  rewrite calculateDistance_meridian; unfold earthRadius, pi; lra.
Qed.

Lemma ln_10_pos : 0 < ln 10.
Proof. rewrite <- ln_1. apply ln_increasing; lra. Qed.

Lemma Log10_le x y : 0 < x -> x <= y -> math.Log10 x <= math.Log10 y.
Proof.
  intros Hx [Hlt | ->]; [| lra].
  unfold math.Log10. pose proof ln_10_pos.
  apply Rmult_le_compat_r; [left; now apply Rinv_0_lt_compat |].
  left. now apply ln_increasing.
Qed.

Lemma Log10_1 : math.Log10 1 = 0.
Proof. unfold math.Log10. rewrite ln_1. apply Rdiv_0_l. Qed.

Lemma Log10_reviews_nonneg (n : Z) : (0 <= n)%Z -> 0 <= math.Log10 (IZR n + 1).
Proof.
  intros Hn. rewrite <- Log10_1. apply IZR_le in Hn.
  apply Log10_le; lra.
Qed.

Lemma popScore_rating_le r1 r2 n d :
  (0 <= n)%Z -> 0 <= d -> r1 <= r2 -> popScore r1 n d <= popScore r2 n d.
Proof.
  intros Hn Hd Hr. unfold popScore; cbv zeta.
  pose proof (Log10_reviews_nonneg n Hn) as HL.
  apply Rmult_le_compat_r; [left; apply Rinv_0_lt_compat; lra |].
  now apply Rmult_le_compat_r.
Qed.

Lemma popScore_reviews_le r n1 n2 d :
  0 <= r -> (0 <= n1)%Z -> 0 <= d -> (n1 <= n2)%Z ->
  popScore r n1 d <= popScore r n2 d.
Proof.
  intros Hr Hn Hd Hle. unfold popScore; cbv zeta.
  assert (HL : math.Log10 (IZR n1 + 1) <= math.Log10 (IZR n2 + 1)).
  { apply IZR_le in Hn, Hle. apply Log10_le; lra. }
  apply Rmult_le_compat_r; [left; apply Rinv_0_lt_compat; lra |].
  apply Rmult_le_compat_l; lra.
Qed.

Lemma popScore_distance_ge r n d1 d2 :
  0 <= r -> (0 <= n)%Z -> 0 <= d1 -> d1 <= d2 ->
  popScore r n d2 <= popScore r n d1.
Proof.
  intros Hr Hn Hd Hle. unfold popScore; cbv zeta.
  pose proof (Log10_reviews_nonneg n Hn) as HL.
  apply Rmult_le_compat_l; [apply Rmult_le_pos; lra |].
  apply Rinv_le_contravar; lra.
Qed.

(** C4.  With the other two arguments fixed, the popularity score does
    not decrease when the rating grows, does not decrease when the
    review count grows, and does not increase when the distance grows
    (ratings in [0, 5], review counts and distances non-negative). *)
Theorem popScore_monotone :
  (forall r1 r2 n d,
      0 <= r1 <= 5 -> 0 <= r2 <= 5 -> (0 <= n)%Z -> 0 <= d ->
      r1 <= r2 -> popScore r1 n d <= popScore r2 n d) /\
  (forall r n1 n2 d,
      0 <= r <= 5 -> (0 <= n1)%Z -> 0 <= d ->
      (n1 <= n2)%Z -> popScore r n1 d <= popScore r n2 d) /\
  (forall r n d1 d2,
      0 <= r <= 5 -> (0 <= n)%Z -> 0 <= d1 ->
      d1 <= d2 -> popScore r n d2 <= popScore r n d1).
Proof.
  split; [| split].
  - intros r1 r2 n d _ _ Hn Hd Hr. now apply popScore_rating_le.
  - intros r n1 n2 d [Hr _] Hn Hd Hle. now apply popScore_reviews_le.
  - intros r n d1 d2 [Hr _] Hn Hd Hle. now apply popScore_distance_ge.
Qed.

Lemma Log10_lt x y : 0 < x -> x < y -> math.Log10 x < math.Log10 y.
Proof.
  intros Hx Hlt. unfold math.Log10. pose proof ln_10_pos.
  apply Rmult_lt_compat_r; [now apply Rinv_0_lt_compat |].
  now apply ln_increasing.
Qed.

(** For a rating, a review count and a distance that are not negative,
    the distance within the range of [calculateDistance], the score is 0
    exactly when the rating is 0 or there is no review: a candidate that
    survives the filter scores 0 only when it is unrated, and every
    rated candidate with a review scores above 0. *)
Theorem popScore_zero_iff r n d :
  0 <= r -> (0 <= n)%Z -> 0 <= d <= 20070000 ->
  (popScore r n d = 0 <-> r = 0 \/ n = 0%Z) /\
  (0 < r -> n <> 0%Z -> 0 < popScore r n d).
Proof.
  intros Hr Hn [Hd _].
  assert (Hpos : 0 < r -> n <> 0%Z -> 0 < popScore r n d).
  { intros Hr0 Hn0. unfold popScore; cbv zeta.
    assert (HL : 0 < math.Log10 (IZR n + 1)).
    { rewrite <- Log10_1. assert (1 <= n)%Z as H1 by lia.
      apply IZR_le in H1. apply Log10_lt; lra. }
    apply Rdiv_lt_0_compat; [now apply Rmult_lt_0_compat | lra]. }
  split; [| exact Hpos]. split.
  - intros E. destruct (Req_dec_T r 0) as [| Hr0]; [now left | right].
    destruct (Z.eq_dec n 0) as [| Hn0]; [assumption |].
    assert (0 < popScore r n d) by (apply Hpos; [lra | assumption]). lra.
  - intros [-> | ->]; unfold popScore; cbv zeta.
    + unfold Rdiv. ring.
    + replace (IZR 0 + 1) with 1 by lra. rewrite Log10_1.
      unfold Rdiv. ring.
Qed.

(** ** Extraction of city, state and country *)

Ltac tag_cases typ :=
  unfold switchType; cbn [existsb cityTags stateTags countryTags];
  destruct (typ =? "locality")%string eqn:E1;
  destruct (typ =? "administrative_area_level_2")%string eqn:E2;
  destruct (typ =? "administrative_area_level_1")%string eqn:E3;
  destruct (typ =? "country")%string eqn:E4;
  repeat match goal with
         | H : (_ =? _)%string = true |- _ => apply String.eqb_eq in H
         end;
  try congruence; cbn.

Lemma switchType_city c f typ :
  foundCity (switchType c f typ) =
  if existsb (String.eqb typ) cityTags && (foundCity f =? "")%string
  then ToLower (AddressComponent.LongName c) else foundCity f.
Proof. tag_cases typ; destruct (foundCity f =? "")%string; reflexivity. Qed.

Lemma switchType_state c f typ :
  foundState (switchType c f typ) =
  if existsb (String.eqb typ) stateTags
  then AddressComponent.LongName c else foundState f.
Proof. tag_cases typ; destruct (foundCity f =? "")%string; reflexivity. Qed.

Lemma switchType_country c f typ :
  foundCountry (switchType c f typ) =
  if existsb (String.eqb typ) countryTags
  then AddressComponent.LongName c else foundCountry f.
Proof. tag_cases typ; destruct (foundCity f =? "")%string; reflexivity. Qed.

Lemma switchType_formattedAddress c f typ :
  formattedAddress (switchType c f typ) = formattedAddress f.
Proof. tag_cases typ; destruct (foundCity f =? "")%string; reflexivity. Qed.

(** The loop over the type tags of one component. *)
Lemma scanTypes_city c types f :
  foundCity (fold_left (switchType c) types f) =
  if existsb (fun typ => existsb (String.eqb typ) cityTags) types
     && (foundCity f =? "")%string
  then ToLower (AddressComponent.LongName c) else foundCity f.
Proof.
  revert f. induction types as [| typ types IH]; intros f; [reflexivity |].
  cbn [fold_left existsb]. rewrite IH, switchType_city.
  destruct (existsb (String.eqb typ) cityTags);
    destruct (foundCity f =? "")%string eqn:Ef;
    destruct (existsb _ types); cbn; try rewrite Ef; try reflexivity.
  now destruct (ToLower (AddressComponent.LongName c) =? "")%string.
Qed.

Lemma scanTypes_state c types f :
  foundState (fold_left (switchType c) types f) =
  if existsb (fun typ => existsb (String.eqb typ) stateTags) types
  then AddressComponent.LongName c else foundState f.
Proof.
  revert f. induction types as [| typ types IH]; intros f; [reflexivity |].
  cbn [fold_left existsb]. rewrite IH, switchType_state.
  destruct (existsb (String.eqb typ) stateTags);
    destruct (existsb _ types); reflexivity.
Qed.

Lemma scanTypes_country c types f :
  foundCountry (fold_left (switchType c) types f) =
  if existsb (fun typ => existsb (String.eqb typ) countryTags) types
  then AddressComponent.LongName c else foundCountry f.
Proof.
  revert f. induction types as [| typ types IH]; intros f; [reflexivity |].
  cbn [fold_left existsb]. rewrite IH, switchType_country.
  destruct (existsb (String.eqb typ) countryTags);
    destruct (existsb _ types); reflexivity.
Qed.

Lemma scanTypes_formattedAddress c types f :
  formattedAddress (fold_left (switchType c) types f) = formattedAddress f.
Proof.
  revert f. induction types as [| typ types IH]; intros f; [reflexivity |].
  cbn [fold_left]. now rewrite IH, switchType_formattedAddress.
Qed.

(** The loop over the components of one result. *)
Lemma scanComponents_city components f :
  foundCity (scanComponents components f) =
  if (foundCity f =? "")%string
  then lowerNameOf (find namesCity components) else foundCity f.
Proof.
  revert f. induction components as [| c cs IH]; intros f.
  - cbn. destruct (foundCity f =? "")%string eqn:E; [| reflexivity].
    now apply String.eqb_eq in E.
  - unfold scanComponents in *. cbn [fold_left find].
    rewrite IH, scanTypes_city. unfold namesCity at 2, hasType.
    destruct (existsb _ (AddressComponent.Types c));
      destruct (foundCity f =? "")%string eqn:Ef; cbn; try rewrite Ef;
      try reflexivity.
    destruct (ToLower (AddressComponent.LongName c) =? "")%string eqn:El;
      cbn; reflexivity.
Qed.

Lemma scanComponents_state components f :
  foundState (scanComponents components f) =
  match findLast (hasType stateTags) components with
  | Some c => AddressComponent.LongName c
  | None => foundState f
  end.
Proof.
  revert f. induction components as [| c cs IH]; intros f; [reflexivity |].
  unfold scanComponents in *. cbn [fold_left findLast].
  rewrite IH, scanTypes_state. unfold hasType.
  destruct (findLast _ cs); [reflexivity |].
  now destruct (existsb _ (AddressComponent.Types c)).
Qed.

Lemma scanComponents_country components f :
  foundCountry (scanComponents components f) =
  match findLast (hasType countryTags) components with
  | Some c => AddressComponent.LongName c
  | None => foundCountry f
  end.
Proof.
  revert f. induction components as [| c cs IH]; intros f; [reflexivity |].
  unfold scanComponents in *. cbn [fold_left findLast].
  rewrite IH, scanTypes_country. unfold hasType.
  destruct (findLast _ cs); [reflexivity |].
  now destruct (existsb _ (AddressComponent.Types c)).
Qed.

Lemma scanComponents_formattedAddress components f :
  formattedAddress (scanComponents components f) = formattedAddress f.
Proof.
  revert f. induction components as [| c cs IH]; intros f; [reflexivity |].
  unfold scanComponents in *. cbn [fold_left].
  now rewrite IH, scanTypes_formattedAddress.
Qed.

(** C6, as amended.  Scanning one geocoding result updates the city,
    state and country found so far.  The city is only set while it is
    still empty: the first "locality" or "administrative_area_level_2"
    component whose lower-cased long name is not empty wins, and a city
    found earlier (also in an earlier result) is kept.  The state and the
    country are overwritten by every "administrative_area_level_1" and
    "country" component: the last one of the result wins, and a result
    without one keeps the value found before. *)
Theorem scanResult_extraction (result : GeocodingResult.t) (f : Found) :
  let components := GeocodingResult.AddressComponents result in
  foundCity (scanResult result f) =
    (if (foundCity f =? "")%string
     then lowerNameOf (find namesCity components) else foundCity f) /\
  foundState (scanResult result f) =
    match findLast (hasType stateTags) components with
    | Some c => AddressComponent.LongName c
    | None => foundState f
    end /\
  foundCountry (scanResult result f) =
    match findLast (hasType countryTags) components with
    | Some c => AddressComponent.LongName c
    | None => foundCountry f
    end /\
  formattedAddress (scanResult result f) =
    GeocodingResult.FormattedAddress result.
Proof.
  cbv zeta. unfold scanResult.
  rewrite scanComponents_city, scanComponents_state,
    scanComponents_country, scanComponents_formattedAddress.
  cbn. repeat split.
Qed.

(** ** [ValidatePinCodeWithCity] *)

Lemma prefix_append substr s :
  String.prefix substr s = true <-> exists suf, s = (substr ++ suf)%string.
Proof.
  revert s. induction substr as [| c substr IH]; intros s.
  - split; [intros _; now exists s | now destruct s].
  - destruct s as [| d s]; cbn;
      [split; [discriminate | intros [suf E]; discriminate] |].
    destruct (ascii_dec c d) as [-> | Hne].
    + rewrite IH. split; intros [suf E]; exists suf; congruence.
    + split; [discriminate | intros [suf E]; congruence].
Qed.

(** [strings.Contains s substr] holds exactly when [substr] is within
    [s]. *)
Lemma Contains_within s substr :
  strings.Contains s substr = true <->
  exists pre suf, s = (pre ++ substr ++ suf)%string.
Proof.
  induction s as [| c s IH]; cbn [strings.Contains].
  - destruct (String.prefix substr "") eqn:Hp.
    + split; [intros _ | reflexivity].
      apply prefix_append in Hp. destruct Hp as [suf E].
      now exists EmptyString, suf.
    + split; [discriminate |]. intros (pre & suf & E).
      destruct pre; [| discriminate]. cbn in E.
      assert (String.prefix substr "" = true)
        by (apply prefix_append; now exists suf).
      congruence.
  - destruct (String.prefix substr (String c s)) eqn:Hp.
    + split; [intros _ | reflexivity].
      apply prefix_append in Hp. destruct Hp as [suf E].
      now exists EmptyString, suf.
    + rewrite IH. split.
      * intros (pre & suf & ->). now exists (String c pre), suf.
      * intros (pre & suf & E). destruct pre as [| d pre].
        -- cbn in E.
           assert (String.prefix substr (String c s) = true)
             by (apply prefix_append; now exists suf).
           congruence.
        -- injection E as _ ->. now exists pre, suf.
Qed.

Lemma Contains_empty s : strings.Contains s "" = true.
Proof. destruct s; reflexivity. Qed.

Lemma cityMatches_empty city : cityMatches "" city = true.
Proof. unfold cityMatches. rewrite Contains_empty. apply orb_true_r. Qed.

Lemma ValidatePinCodeWithCity_geocoded s pinCode city tr results :
  TrimSpace pinCode <> ""%string ->
  ToLower (TrimSpace city) <> ""%string ->
  Geocode (mapsClient s) tr (validationRequest pinCode) = Ok results ->
  results <> [] ->
  ValidatePinCodeWithCity s pinCode city tr =
  (Ok (resultsLoop (TrimSpace pinCode) (ToLower (TrimSpace city)) results
         noneFound),
   tr ++ [GeocodeCall (validationRequest pinCode)]).
Proof.
  intros Hp Hc Hg Hr. unfold ValidatePinCodeWithCity.
  apply String.eqb_neq in Hp, Hc. rewrite Hp, Hc. cbn [orb].
  unfold bind, orErrorf, callGeocode. fold (validationRequest pinCode).
  rewrite Hg. destruct results as [| r rs]; [contradiction | reflexivity].
Qed.

Lemma resultsLoop_no_match pinCode city results f :
  (forall n, (n < List.length results)%nat ->
     cityMatches (foundCity (scanResults (firstn (S n) results) f)) city
     = false) ->
  resultsLoop pinCode city results f =
  mismatchResponse pinCode city (scanResults results f).
Proof.
  revert f. induction results as [| r rs IH]; intros f H.
  - cbn. unfold mismatchResponse. now destruct (foundCity f =? "")%string.
  - cbn [resultsLoop]. cbv zeta.
    pose proof (H 0%nat ltac:(cbn; lia)) as H0.
    change (scanResults (firstn 1 (r :: rs)) f) with (scanResult r f) in H0.
    rewrite H0, IH; [reflexivity |].
    intros n Hn. apply (H (S n)). cbn; lia.
Qed.

(** When no result matches, some city has been extracted: an empty
    city would have matched any claimed city. *)
Lemma no_match_city_extracted city results f :
  results <> [] ->
  (forall n, (n < List.length results)%nat ->
     cityMatches (foundCity (scanResults (firstn (S n) results) f)) city
     = false) ->
  foundCity (scanResults results f) <> ""%string.
Proof.
  intros Hr H E.
  assert (Hn : (List.length results - 1 < List.length results)%nat).
  { destruct results; [contradiction | cbn; lia]. }
  specialize (H _ Hn).
  replace (S (List.length results - 1)) with (List.length results) in H by lia.
  rewrite firstn_all, E, cityMatches_empty in H. discriminate.
Qed.

(** C10.  When the first geocoding result carries no "locality" and no
    "administrative_area_level_2" component, every non-empty claimed
    city is accepted: the answer is valid=true with an empty city in the
    details. *)
Theorem missing_city_matches_any s pinCode city tr result results :
  TrimSpace pinCode <> ""%string ->
  ToLower (TrimSpace city) <> ""%string ->
  Geocode (mapsClient s) tr (validationRequest pinCode)
    = Ok (result :: results) ->
  (forall c, In c (GeocodingResult.AddressComponents result) ->
             hasType cityTags c = false) ->
  exists resp details tr',
    ValidatePinCodeWithCity s pinCode city tr = (Ok resp, tr') /\
    ValidationResponse.Valid resp = true /\
    ValidationResponse.Details resp = Some details /\
    Details.City details = ""%string.
Proof.
  intros Hp Hc Hg Hno.
  assert (Hcity : foundCity (scanResult result noneFound) = ""%string).
  { unfold scanResult. rewrite scanComponents_city.
    cbn. destruct (find namesCity _) as [c |] eqn:Ef; [| reflexivity].
    apply find_some in Ef. destruct Ef as [Hin Hn].
    unfold namesCity in Hn. rewrite (Hno _ Hin) in Hn. discriminate. }
  eexists _, _, _. split.
  - rewrite (ValidatePinCodeWithCity_geocoded _ _ _ _ _ Hp Hc Hg)
      by discriminate.
    cbn [resultsLoop]. cbv zeta. rewrite Hcity, cityMatches_empty.
    reflexivity.
  - cbn. repeat split. exact Hcity.
Qed.

(** The validation calls the Maps client at most once, for geocoding. *)
Lemma ValidatePinCodeWithCity_trace s pinCode city tr :
  snd (ValidatePinCodeWithCity s pinCode city tr) = tr \/
  snd (ValidatePinCodeWithCity s pinCode city tr) =
    tr ++ [GeocodeCall (validationRequest pinCode)].
Proof.
  unfold ValidatePinCodeWithCity.
  destruct (_ || _); [now left | right].
  unfold bind, orErrorf, callGeocode. fold (validationRequest pinCode).
  destruct (Geocode _ _ _) as [results | err]; [| reflexivity].
  now destruct (List.length results =? 0)%nat.
Qed.

(** A city found earlier is kept by every later result. *)
Lemma scanResult_city_kept result f :
  foundCity f <> ""%string ->
  foundCity (scanResult result f) = foundCity f.
Proof.
  intros Hne. unfold scanResult. rewrite scanComponents_city. cbn.
  apply String.eqb_neq in Hne. now rewrite Hne.
Qed.

Lemma resultsLoop_city_kept pinCode city results f :
  foundCity f <> ""%string ->
  cityMatches (foundCity f) city = false ->
  ValidationResponse.Valid (resultsLoop pinCode city results f) = false.
Proof.
  revert f. induction results as [| r rs IH]; intros f Hne Hno;
    [reflexivity |].
  cbn [resultsLoop]. cbv zeta.
  rewrite (scanResult_city_kept r f Hne), Hno.
  apply IH; now rewrite (scanResult_city_kept r f Hne).
Qed.

Lemma scanResults_city_kept results f :
  foundCity f <> ""%string ->
  foundCity (scanResults results f) = foundCity f.
Proof.
  revert f. induction results as [| r rs IH]; intros f Hne; [reflexivity |].
  unfold scanResults in *. cbn [fold_left].
  rewrite IH; rewrite (scanResult_city_kept r f Hne); auto.
Qed.

(** Once a city is found that does not match, the loop runs to its end
    and the response after the loop suggests that city. *)
Lemma resultsLoop_mismatch pinCode city results f :
  foundCity f <> ""%string ->
  cityMatches (foundCity f) city = false ->
  resultsLoop pinCode city results f =
  mismatchResponse pinCode city (scanResults results f).
Proof.
  intros Hne Hno. apply resultsLoop_no_match. intros n _.
  now rewrite scanResults_city_kept.
Qed.


(** The first geocoding result decides the validation: the answer is
    valid exactly when the city extracted from the first result matches
    the claimed city.  A later result cannot change the city once it is
    found, and an empty city matches at once. *)
Theorem first_result_decides s pinCode city tr result results :
  TrimSpace pinCode <> ""%string ->
  ToLower (TrimSpace city) <> ""%string ->
  Geocode (mapsClient s) tr (validationRequest pinCode)
    = Ok (result :: results) ->
  exists resp tr',
    ValidatePinCodeWithCity s pinCode city tr = (Ok resp, tr') /\
    ValidationResponse.Valid resp =
    cityMatches (foundCity (scanResult result noneFound))
      (ToLower (TrimSpace city)).
Proof.
  intros Hp Hc Hg. eexists _, _. split.
  - apply (ValidatePinCodeWithCity_geocoded _ _ _ _ _ Hp Hc Hg). discriminate.
  - cbn [resultsLoop]. cbv zeta.
    destruct (cityMatches _ _) eqn:Hm; [reflexivity |].
    apply resultsLoop_city_kept; [| exact Hm].
    intros E. rewrite E, cityMatches_empty in Hm. discriminate.
Qed.

(** The validation fails fast, without a call to the Maps client, when
    the PIN code or the city is empty after cleaning. *)
Theorem empty_input_no_call s pinCode city tr :
  TrimSpace pinCode = ""%string \/ ToLower (TrimSpace city) = ""%string ->
  ValidatePinCodeWithCity s pinCode city tr =
  (Ok {| ValidationResponse.Valid := false;
         ValidationResponse.Message := "PIN code and city are required";
         ValidationResponse.Suggestions := [];
         ValidationResponse.Details := None |}, tr).
Proof.
  intros H. unfold ValidatePinCodeWithCity.
  replace ((TrimSpace pinCode =? "") || (ToLower (TrimSpace city) =? ""))%string
    with true; [reflexivity |].
  symmetry. apply orb_true_iff.
  destruct H as [-> | ->]; [left | right]; reflexivity.
Qed.

(** ** Scoring, sorting and selection *)

(** The contract of [sort.Slice]. *)
Hypothesis sort_Slice_Permutation :
  forall (A : Type) (x : list A) (less : A -> A -> bool),
    Permutation x (sort_Slice A x less).
Hypothesis sort_Slice_sorted :
  forall (A : Type) (x : list A) (less : A -> A -> bool),
    StrictWeakOrder less -> SortedBy less (sort_Slice A x less).

Lemma Rltb_true x y : Rltb x y = true <-> x < y.
Proof. unfold Rltb. destruct (Rlt_dec x y); split; intros; auto; discriminate. Qed.

Lemma Rltb_false x y : Rltb x y = false <-> ~ x < y.
Proof. unfold Rltb. destruct (Rlt_dec x y); split; intros; auto; try discriminate; contradiction. Qed.

Lemma Rgtb_true x y : Rgtb x y = true <-> x > y.
Proof. unfold Rgtb. destruct (Rgt_dec x y); split; intros; auto; discriminate. Qed.

Lemma Rgtb_false x y : Rgtb x y = false <-> x <= y.
Proof.
  unfold Rgtb. destruct (Rgt_dec x y); split; intros; auto; try discriminate; lra.
Qed.

Lemma byScore_StrictWeakOrder : StrictWeakOrder byScore.
Proof.
  unfold byScore. repeat split.
  - intros a. apply Rgtb_false. lra.
  - intros a b c H1 H2. apply Rgtb_true in H1, H2. apply Rgtb_true. lra.
  - intros a b c H1 H2. apply Rgtb_false in H1, H2. apply Rgtb_false. lra.
Qed.

Lemma scorePlaces_acc location places acc :
  fold_left (scorePlace location) places acc =
  acc ++ map (scoredPlace location) (survivors location places).
Proof.
  revert acc. induction places as [| p ps IH]; intros acc; cbn.
  - now rewrite app_nil_r.
  - rewrite IH. unfold scorePlace.
    destruct (skipped location p); cbn; [reflexivity |].
    now rewrite <- app_assoc.
Qed.

(** The scoring loop keeps exactly the candidates it does not skip, in
    their order. *)
Lemma scorePlaces_survivors location places :
  scorePlaces location places =
  map (scoredPlace location) (survivors location places).
Proof. unfold scorePlaces. now rewrite scorePlaces_acc. Qed.

Lemma In_firstn {A} (a : A) n l : In a (firstn n l) -> In a l.
Proof.
  intros H. rewrite <- (firstn_skipn n l). apply in_or_app. now left.
Qed.

Lemma topLandmarks_firstn scoredLandmarks :
  topLandmarks scoredLandmarks =
  map scoredLandmark.landmark
    (firstn 5 (sort_Slice _ scoredLandmarks byScore)).
Proof.
  unfold topLandmarks. cbv zeta.
  destruct (Nat.ltb_spec (List.length (sort_Slice _ scoredLandmarks byScore)) 5);
    [| reflexivity].
  rewrite firstn_all. now rewrite firstn_all2 by lia.
Qed.

Lemma topLandmarks_length scoredLandmarks :
  List.length (topLandmarks scoredLandmarks) =
  Nat.min 5 (List.length scoredLandmarks).
Proof.
  rewrite topLandmarks_firstn, length_map, length_firstn.
  now rewrite <- (Permutation_length (sort_Slice_Permutation _ scoredLandmarks byScore)).
Qed.

Lemma topLandmarks_In scoredLandmarks l :
  In l (topLandmarks scoredLandmarks) ->
  exists sl, In sl scoredLandmarks /\ scoredLandmark.landmark sl = l.
Proof.
  rewrite topLandmarks_firstn. intros Hin.
  apply in_map_iff in Hin. destruct Hin as (sl & E & Hin).
  exists sl. split; [| exact E].
  apply In_firstn in Hin.
  eapply Permutation_in; [| exact Hin].
  apply Permutation_sym, sort_Slice_Permutation.
Qed.

(** Every selected landmark is the landmark of a candidate that the
    loop did not skip. *)
Lemma topLandmarks_survivor location places l :
  In l (topLandmarks (scorePlaces location places)) ->
  exists place,
    In place places /\ skipped location place = false /\
    l = scoredLandmark.landmark (scoredPlace location place).
Proof.
  intros Hin. apply topLandmarks_In in Hin. destruct Hin as (sl & Hin & <-).
  rewrite scorePlaces_survivors in Hin.
  apply in_map_iff in Hin. destruct Hin as (place & <- & Hin).
  unfold survivors in Hin. apply filter_In in Hin. destruct Hin as [Hin Hk].
  exists place. repeat split; [exact Hin |].
  now destruct (skipped location place).
Qed.

Lemma Sorted_weaken {A} (R1 R2 : A -> A -> Prop) l :
  (forall a b, R1 a b -> R2 a b) -> Sorted R1 l -> Sorted R2 l.
Proof.
  intros HR. induction 1 as [| a l Hs IH Hd]; constructor; [exact IH |].
  destruct Hd; constructor; auto.
Qed.

Lemma StronglySorted_firstn {A} (R0 : A -> A -> Prop) n l :
  StronglySorted R0 l -> StronglySorted R0 (firstn n l).
Proof.
  intros Hs. revert n. induction Hs as [| a l Hs IH Hf]; intros [| n]; cbn;
    try constructor; [apply IH |].
  apply Forall_forall. intros b Hb. apply In_firstn in Hb.
  rewrite Forall_forall in Hf. now apply Hf.
Qed.

Lemma StronglySorted_map {A B} (f : A -> B) (R0 : B -> B -> Prop) l :
  StronglySorted (fun a b => R0 (f a) (f b)) l -> StronglySorted R0 (map f l).
Proof.
  induction 1 as [| a l Hs IH Hf]; cbn; constructor; [exact IH |].
  apply Forall_map. exact Hf.
Qed.

(** The sorted slice is in non-increasing order of score. *)
Lemma sort_by_score scoredLandmarks :
  StronglySorted
    (fun a b => scoredLandmark.score a >= scoredLandmark.score b)
    (sort_Slice _ scoredLandmarks byScore).
Proof.
  apply Sorted_StronglySorted.
  - intros a b c Hab Hbc. lra.
  - eapply Sorted_weaken;
      [| exact (sort_Slice_sorted _ scoredLandmarks byScore byScore_StrictWeakOrder)].
    intros a b H. unfold byScore in H. apply Rgtb_false in H. lra.
Qed.

Lemma topLandmarks_sorted scoredLandmarks :
  Forall (fun sl => scoredLandmark.score sl =
                    Landmark.PopScore (scoredLandmark.landmark sl))
    scoredLandmarks ->
  StronglySorted (fun a b => Landmark.PopScore a >= Landmark.PopScore b)
    (topLandmarks scoredLandmarks).
Proof.
  intros Hsc. rewrite topLandmarks_firstn.
  apply StronglySorted_map, StronglySorted_firstn.
  assert (Hsc' : Forall (fun sl => scoredLandmark.score sl =
                    Landmark.PopScore (scoredLandmark.landmark sl))
                   (sort_Slice _ scoredLandmarks byScore)).
  { eapply Permutation_Forall; [apply sort_Slice_Permutation | exact Hsc]. }
  pose proof (sort_by_score scoredLandmarks) as Hs.
  induction Hs as [| a l Hs IH Hf]; constructor.
  - apply IH. now inversion Hsc'.
  - inversion Hsc' as [| ? ? Ea Hl]; subst.
    rewrite Forall_forall in *. intros b Hb.
    rewrite <- Ea, <- (Hl b Hb). now apply Hf.
Qed.

Lemma scorePlaces_scores location places :
  Forall (fun sl => scoredLandmark.score sl =
                    Landmark.PopScore (scoredLandmark.landmark sl))
    (scorePlaces location places).
Proof.
  rewrite scorePlaces_survivors. apply Forall_map, Forall_forall.
  reflexivity.
Qed.

(** ** The runs of [GetNearbyLandmarks] *)

Lemma searchLandmarks_run s location locationAddress radius tr :
  searchLandmarks s location locationAddress radius tr =
  (match NearbySearch (mapsClient s) tr (nearbyRequest location radius) with
   | Ok nearbyResults =>
       Ok (landmarksFound location locationAddress
             (PlacesSearchResponse.Results nearbyResults))
   | Err err => Err ("nearby search failed: " ++ err)%string
   end,
   tr ++ [NearbySearchCall (nearbyRequest location radius)]).
Proof.
  unfold searchLandmarks, bind, orErrorf, callNearbySearch, ret.
  now destruct (NearbySearch _ _ _).
Qed.

Lemma bind_run {A B} (m : M A) (k : A -> M B) tr :
  (a <- m ;; k a) tr =
  match m tr with
  | (Ok a, tr') => k a tr'
  | (Err err, tr') => (Err err, tr')
  end.
Proof. reflexivity. Qed.

Lemma bind_geocode {B} s req prefix (k : list GeocodingResult.t -> M B) tr :
  (results <- orErrorf (callGeocode s req) prefix ;; k results) tr =
  match Geocode (mapsClient s) tr req with
  | Ok results => k results (tr ++ [GeocodeCall req])
  | Err err => (Err (prefix ++ err)%string, tr ++ [GeocodeCall req])
  end.
Proof.
  unfold bind, orErrorf, callGeocode. now destruct (Geocode _ _ _).
Qed.

(** A run either stops before the nearby search, with a soft failure or
    an error and after geocoding calls only, or continues with the
    nearby search from a resolved location. *)
Lemma GetNearbyLandmarks_cases s pinCode city address radius tr :
  exists calls,
    Forall (fun c => isGeocodeCall c = true) calls /\
    ((exists message,
         GetNearbyLandmarks s pinCode city address radius tr =
         (Ok (softFailure message), tr ++ calls)) \/
     (exists err,
         GetNearbyLandmarks s pinCode city address radius tr =
         (Err err, tr ++ calls)) \/
     (exists location locationAddress,
         GetNearbyLandmarks s pinCode city address radius tr =
         searchLandmarks s location locationAddress radius (tr ++ calls))).
Proof.
  unfold GetNearbyLandmarks.
  destruct (negb (address =? "")%string).
  - cbv zeta. rewrite bind_geocode.
    match goal with |- context [GeocodeCall ?r] => exists [GeocodeCall r] end.
    split; [repeat constructor |].
    destruct (Geocode _ _ _) as [[| first rest] | err];
      [left | right; right | right; left]; unfold ret; eauto.
  - destruct (negb (pinCode =? "") && negb (city =? ""))%string;
      [| exists []; split;
         [constructor | left; rewrite app_nil_r; unfold ret; eauto]].
    rewrite (bind_run (ValidatePinCodeWithCity s pinCode city)).
    pose proof (ValidatePinCodeWithCity_trace s pinCode city tr) as Htr.
    destruct (ValidatePinCodeWithCity s pinCode city tr)
      as [[validation | err] tr1]; cbn [snd] in Htr.
    + assert (Hv : exists vcalls,
                 Forall (fun c => isGeocodeCall c = true) vcalls /\
                 tr1 = tr ++ vcalls).
      { destruct Htr as [-> | ->];
          [exists []; rewrite app_nil_r | eexists [GeocodeCall _]];
          split; auto; repeat constructor. }
      destruct Hv as (vcalls & Hvc & ->).
      destruct (negb (ValidationResponse.Valid validation)).
      * exists vcalls. split; [exact Hvc | left; unfold ret; eauto].
      * cbv zeta. rewrite bind_geocode.
        match goal with
        | |- context [GeocodeCall ?r] => exists (vcalls ++ [GeocodeCall r])
        end.
        split; [apply Forall_app; split; [exact Hvc | repeat constructor] |].
        rewrite app_assoc.
        destruct (Geocode _ _ _) as [[| first rest] | err];
          [left | right; right | right; left]; unfold ret; eauto.
    + destruct Htr as [-> | ->];
        [exists []; rewrite app_nil_r | eexists [GeocodeCall _]];
        (split; [repeat constructor | right; left; eauto]).
Qed.

Lemma geocode_calls_no_candidates s tr calls location places :
  Forall (fun c => isGeocodeCall c = true) calls ->
  ~ nearbyCandidates s tr (tr ++ calls) location places.
Proof.
  intros Hg (calls' & req & nearbyResults & E & _).
  apply app_inv_head in E. subst calls.
  apply Forall_app in Hg. destruct Hg as [_ Hg].
  inversion Hg as [| ? ? Hc]. discriminate.
Qed.

Lemma nearbyCandidates_unique s tr tr' location places location' places' :
  nearbyCandidates s tr tr' location places ->
  nearbyCandidates s tr tr' location' places' ->
  location' = location /\ places' = places.
Proof.
  intros (calls & req & r & E & Hn & -> & ->)
         (calls' & req' & r' & E' & Hn' & -> & ->).
  rewrite E in E'. apply app_inv_head in E'.
  apply app_inj_tail in E'. destruct E' as [<- E']. injection E' as <-.
  rewrite Hn in Hn'. injection Hn' as <-. split; reflexivity.
Qed.

(** What a run that returns a response has done. *)
Lemma GetNearbyLandmarks_Ok s pinCode city address radius tr resp tr' :
  GetNearbyLandmarks s pinCode city address radius tr = (Ok resp, tr') ->
  (LandmarksResponse.Success resp = false /\
   LandmarksResponse.Landmarks resp = [] /\
   forall location places, ~ nearbyCandidates s tr tr' location places) \/
  (exists location locationAddress places,
     nearbyCandidates s tr tr' location places /\
     resp = landmarksFound location locationAddress places).
Proof.
  intros Hrun.
  destruct (GetNearbyLandmarks_cases s pinCode city address radius tr)
    as (calls & Hg & [(message & E) | [(err & E) | (location & addr & E)]]);
    rewrite E in Hrun.
  - injection Hrun as <- <-. left. repeat split.
    intros. now apply geocode_calls_no_candidates.
  - discriminate.
  - rewrite searchLandmarks_run in Hrun.
    destruct (NearbySearch _ _ _) as [nearbyResults | err] eqn:Hn;
      [| discriminate].
    injection Hrun as <- <-. right.
    exists location, addr, (PlacesSearchResponse.Results nearbyResults).
    split; [| reflexivity].
    exists calls, (nearbyRequest location radius), nearbyResults.
    repeat split; [now rewrite app_assoc | exact Hn].
Qed.

(** ** The landmarks returned *)

(** C1.  No landmark returned by [GetNearbyLandmarks] is closer than 10
    meters to the resolved location, where its distance is the one
    [calculateDistance] computes from that location, and none has a
    review count of 0: every returned landmark comes from a candidate
    that the scoring loop did not skip. *)
Theorem excluded_candidates_never_returned
    s pinCode city address radius tr resp tr' :
  GetNearbyLandmarks s pinCode city address radius tr = (Ok resp, tr') ->
  Forall
    (fun l =>
       Landmark.Distance l =
         calculateDistance
           (Location.Lat (LandmarksResponse.Location resp))
           (Location.Lng (LandmarksResponse.Location resp))
           (Location.Lat (Landmark.Location l))
           (Location.Lng (Landmark.Location l)) /\
       ~ Landmark.Distance l < 10 /\
       Landmark.UserRatings l <> 0%Z)
    (LandmarksResponse.Landmarks resp) /\
  (forall location places,
      nearbyCandidates s tr tr' location places ->
      forall l, In l (LandmarksResponse.Landmarks resp) ->
      exists place,
        In place places /\ skipped location place = false /\
        l = scoredLandmark.landmark (scoredPlace location place)).
Proof.
  intros Hrun.
  destruct (GetNearbyLandmarks_Ok _ _ _ _ _ _ _ _ Hrun)
    as [(_ & Hnil & Hno) | (location & addr & places & Hc & ->)].
  - rewrite Hnil. split; [constructor |].
    intros location places Hc. now destruct (Hno _ _ Hc).
  - cbn [landmarksFound LandmarksResponse.Landmarks
         LandmarksResponse.Location Location.Lat Location.Lng].
    split.
    + apply Forall_forall. intros l Hin.
      apply topLandmarks_survivor in Hin.
      destruct Hin as (place & _ & Hk & ->).
      unfold skipped in Hk. apply orb_false_iff in Hk.
      destruct Hk as [Hd Hn]. apply Rltb_false in Hd.
      apply Z.eqb_neq in Hn. cbn. repeat split; assumption.
    + intros location' places' Hc' l Hin.
      destruct (nearbyCandidates_unique _ _ _ _ _ _ _ Hc Hc') as [-> ->].
      now apply topLandmarks_survivor.
Qed.


(** C3.  The score that the scoring loop assigns to a surviving
    candidate with rating r, review count n and distance d meters is
    r * log10(n + 1) / (1 + d / 1000), and so is the popularity score of
    every landmark that [GetNearbyLandmarks] returns, for its own
    rating, review count and distance. *)
Theorem popularity_score_formula :
  (forall location places,
      map scoredLandmark.score (scorePlaces location places) =
      map (fun place =>
             PlacesSearchResult.Rating place
             * math.Log10 (IZR (PlacesSearchResult.UserRatingsTotal place) + 1)
             / (1 + distanceTo location place / 1000))
        (survivors location places)) /\
  (forall s pinCode city address radius tr resp tr',
      GetNearbyLandmarks s pinCode city address radius tr = (Ok resp, tr') ->
      Forall
        (fun l =>
           Landmark.PopScore l =
           Landmark.Rating l * math.Log10 (IZR (Landmark.UserRatings l) + 1)
           / (1 + Landmark.Distance l / 1000))
        (LandmarksResponse.Landmarks resp)).
Proof.
  split.
  - intros location places. rewrite scorePlaces_survivors, map_map.
    reflexivity.
  - intros s pinCode city address radius tr resp tr' Hrun.
    destruct (GetNearbyLandmarks_Ok _ _ _ _ _ _ _ _ Hrun)
      as [(_ & Hnil & _) | (location & addr & places & _ & ->)].
    + rewrite Hnil. constructor.
    + cbn [landmarksFound LandmarksResponse.Landmarks].
      apply Forall_forall. intros l Hin.
      apply topLandmarks_survivor in Hin.
      destruct Hin as (place & _ & _ & ->). reflexivity.
Qed.

Lemma topLandmarks_nil : topLandmarks [] = [].
Proof.
  rewrite topLandmarks_firstn.
  now rewrite (Permutation_nil (sort_Slice_Permutation _ [] byScore)).
Qed.

(** C9.  When the nearby search has run and no candidate survives the
    filter, [GetNearbyLandmarks] reports success with no landmark and
    the message that none was found and a larger radius may help; a
    successful response without landmarks always carries that message. *)
Theorem no_survivor_descriptive_message
    s pinCode city address radius tr resp tr' :
  GetNearbyLandmarks s pinCode city address radius tr = (Ok resp, tr') ->
  (forall location places,
      nearbyCandidates s tr tr' location places ->
      survivors location places = [] ->
      LandmarksResponse.Success resp = true /\
      LandmarksResponse.Landmarks resp = [] /\
      LandmarksResponse.Message resp = noLandmarksMessage) /\
  (LandmarksResponse.Success resp = true ->
   LandmarksResponse.Landmarks resp = [] ->
   LandmarksResponse.Message resp = noLandmarksMessage).
Proof.
  intros Hrun.
  destruct (GetNearbyLandmarks_Ok _ _ _ _ _ _ _ _ Hrun)
    as [(Hf & _ & Hno) | (location & addr & places & Hc & ->)].
  - split; [| congruence].
    intros location places Hc. now destruct (Hno _ _ Hc).
  - split.
    + intros location' places' Hc' Hs.
      destruct (nearbyCandidates_unique _ _ _ _ _ _ _ Hc Hc') as [-> ->].
      unfold landmarksFound. cbv zeta.
      rewrite scorePlaces_survivors, Hs. cbn [map].
      rewrite topLandmarks_nil. repeat split.
    + cbn [landmarksFound LandmarksResponse.Landmarks
           LandmarksResponse.Message]. intros _ Hnil.
      unfold foundMessage. now rewrite Hnil.
Qed.

Lemma StronglySorted_app_inv {A} (R0 : A -> A -> Prop) l1 l2 a b :
  StronglySorted R0 (l1 ++ l2) -> In a l1 -> In b l2 -> R0 a b.
Proof.
  induction l1 as [| c l1 IH]; cbn; intros Hs Ha Hb; [contradiction |].
  inversion Hs as [| ? ? Hs' Hf]; subst.
  destruct Ha as [-> | Ha]; [| now apply IH].
  rewrite Forall_forall in Hf. apply Hf, in_or_app. now right.
Qed.


(** C8.  In postal-code mode the validation runs first.  When it
    answers invalid, [GetNearbyLandmarks] returns a soft failure with
    the message of the validation and has called the Maps client no
    further: its trace is the trace of the validation, which holds at
    most the geocoding call of the validation itself.  When the
    validation fails with an error, so does [GetNearbyLandmarks], with
    the same error. *)
Theorem invalid_pin_code_short_circuits s pinCode city radius tr :
  pinCode <> ""%string -> city <> ""%string ->
  (forall validation tr',
      ValidatePinCodeWithCity s pinCode city tr = (Ok validation, tr') ->
      ValidationResponse.Valid validation = false ->
      GetNearbyLandmarks s pinCode city "" radius tr =
        (Ok {| LandmarksResponse.Success := false;
               LandmarksResponse.Message :=
                 ValidationResponse.Message validation;
               LandmarksResponse.Landmarks := [];
               LandmarksResponse.Location :=
                 {| Location.Lat := 0; Location.Lng := 0 |} |}, tr') /\
      (tr' = tr \/ tr' = tr ++ [GeocodeCall (validationRequest pinCode)])) /\
  (forall err tr',
      ValidatePinCodeWithCity s pinCode city tr = (Err err, tr') ->
      GetNearbyLandmarks s pinCode city "" radius tr = (Err err, tr')).
Proof.
  intros Hp Hc. apply String.eqb_neq in Hp, Hc.
  unfold GetNearbyLandmarks. cbn [String.eqb negb]. rewrite Hp, Hc.
  cbn [negb andb]. split.
  - intros validation tr' Hv Hinvalid. rewrite bind_run, Hv, Hinvalid.
    split; [reflexivity |].
    pose proof (ValidatePinCodeWithCity_trace s pinCode city tr) as Htr.
    now rewrite Hv in Htr.
  - intros err tr' Hv. now rewrite bind_run, Hv.
Qed.

(** A street address takes precedence: with one, the PIN code and the
    city are not read. *)
Theorem address_takes_precedence
    s pinCode city pinCode' city' address radius tr :
  address <> ""%string ->
  GetNearbyLandmarks s pinCode city address radius tr =
  GetNearbyLandmarks s pinCode' city' address radius tr.
Proof.
  intros Ha. apply String.eqb_neq in Ha.
  unfold GetNearbyLandmarks. now rewrite Ha.
Qed.

(** Without an address and without both a PIN code and a city the
    answer is a soft failure, and the Maps client is not called. *)
Theorem no_input_mode_soft_failure s pinCode city radius tr :
  pinCode = ""%string \/ city = ""%string ->
  GetNearbyLandmarks s pinCode city "" radius tr =
  (Ok {| LandmarksResponse.Success := false;
         LandmarksResponse.Message :=
           "Please provide either an address OR both pin code and city";
         LandmarksResponse.Landmarks := [];
         LandmarksResponse.Location :=
           {| Location.Lat := 0; Location.Lng := 0 |} |}, tr).
Proof.
  intros H. unfold GetNearbyLandmarks. cbn [String.eqb negb].
  replace (negb (pinCode =? "") && negb (city =? ""))%string with false;
    [reflexivity |].
  symmetry. apply andb_false_iff.
  destruct H as [-> | ->]; [left | right]; reflexivity.
Qed.

(** ** Further properties of the distance and of the score *)

Lemma PI_bounds : 3.14 < PI < 3.15.
Proof.
  pose proof (PI_2_3_7_ineq 1) as H.
  unfold sum_f_R0, tg_alt, PI_2_3_7_tg, Ratan_seq in H.
  cbn [Nat.mul Nat.add] in H. simpl in H.
  lra.
Qed.

Lemma Atan2_le_PI2 y x : 0 <= y -> 0 <= x -> math.Atan2 y x <= PI / 2.
Proof.
  intros Hy Hx. unfold math.Atan2, math.Atan. pose proof PI_RGT_0.
  destruct (Req_dec_T y 0).
  - destruct (Rle_dec 0 x); lra.
  - destruct (Req_dec_T x 0).
    + destruct (Rlt_dec 0 y); lra.
    + cbv zeta. destruct (Rlt_dec x 0); [lra |].
      pose proof (atan_bound (y / x)). lra.
Qed.

(** No distance exceeds half the circumference of the earth, which is
    less than 20,070 km. *)
Theorem calculateDistance_at_most_half_circumference lat1 lon1 lat2 lon2 :
  calculateDistance lat1 lon1 lat2 lon2 <= earthRadius * PI /\
  calculateDistance lat1 lon1 lat2 lon2 < 20070000.
Proof.
  rewrite calculateDistance_haversine.
  assert (H : math.Atan2 (math.Sqrt (haversine_a lat1 lon1 lat2 lon2))
                (math.Sqrt (1 - haversine_a lat1 lon1 lat2 lon2)) <= PI / 2).
  { apply Atan2_le_PI2; unfold math.Sqrt; apply sqrt_pos. }
  pose proof PI_bounds. unfold earthRadius. split; nra.
Qed.

Lemma haversine_a_mirror_lat lat1 lon1 lat2 lon2 :
  haversine_a (- lat1) lon1 (- lat2) lon2 = haversine_a lat1 lon1 lat2 lon2.
Proof.
  unfold haversine_a, math.Sin, math.Cos; cbv zeta.
  replace ((- lat2 - - lat1) * (pi / 180) / 2)
    with (- ((lat2 - lat1) * (pi / 180) / 2)) by field.
  replace (- lat1 * (pi / 180)) with (- (lat1 * (pi / 180))) by ring.
  replace (- lat2 * (pi / 180)) with (- (lat2 * (pi / 180))) by ring.
  rewrite sin_neg, !cos_neg. ring.
Qed.

Lemma haversine_a_mirror_lon lat1 lon1 lat2 lon2 :
  haversine_a lat1 (- lon1) lat2 (- lon2) = haversine_a lat1 lon1 lat2 lon2.
Proof.
  unfold haversine_a, math.Sin, math.Cos; cbv zeta.
  replace ((- lon2 - - lon1) * (pi / 180) / 2)
    with (- ((lon2 - lon1) * (pi / 180) / 2)) by field.
  rewrite sin_neg. ring.
Qed.

(** The distance is the same for the mirror images of the two points in
    the equator (both latitudes negated) and for their mirror images in
    the zero meridian (both longitudes negated). *)
Theorem calculateDistance_mirror_invariant lat1 lon1 lat2 lon2 :
  calculateDistance (- lat1) lon1 (- lat2) lon2 =
    calculateDistance lat1 lon1 lat2 lon2 /\
  calculateDistance lat1 (- lon1) lat2 (- lon2) =
    calculateDistance lat1 lon1 lat2 lon2.
Proof.
  split; rewrite !calculateDistance_haversine.
  - now rewrite haversine_a_mirror_lat.
  - now rewrite haversine_a_mirror_lon.
Qed.

(** Between two points of one meridian, the second up to 179.9 degrees
    north of the first, the distance is the length of the arc between
    their latitudes. *)
Theorem meridian_distance_is_arc lat1 lat2 lon :
  0 <= lat2 - lat1 <= 179.9 ->
  calculateDistance lat1 lon lat2 lon =
  earthRadius * ((lat2 - lat1) * (pi / 180)).
Proof.
  intros H. apply calculateDistance_meridian.
  pose proof PI_bounds. unfold pi. lra.
Qed.

(** The score is never negative and never above the review score
    rating * log10(reviews + 1): the distance only lowers it. *)
Theorem popScore_bounds r n d :
  0 <= r -> (0 <= n)%Z -> 0 <= d ->
  0 <= popScore r n d <= r * math.Log10 (IZR n + 1).
Proof.
  intros Hr Hn Hd. unfold popScore; cbv zeta.
  pose proof (Log10_reviews_nonneg n Hn) as HL.
  set (x := r * math.Log10 (IZR n + 1)).
  assert (Hx : 0 <= x) by (apply Rmult_le_pos; assumption).
  assert (Hp : 0 < / (1 + d / 1000) <= 1).
  { split; [apply Rinv_0_lt_compat; lra |].
    rewrite <- Rinv_1. apply Rinv_le_contravar; lra. }
  clearbody x. unfold Rdiv at 1 3. nra.
Qed.

(** ** The distance of the earlier revision *)

Lemma legacy_calculateDistance_eq lat1 lon1 lat2 lon2 :
  Legacy.calculateDistance lat1 lon1 lat2 lon2 =
  earthRadius * (pi / 180) * (pi / 180) / 2 *
    ((lat2 - lat1) * (lat2 - lat1)
     + lat1 * lat2 * ((lon2 - lon1) * (pi / 180) * ((lon2 - lon1) * (pi / 180)))).
Proof. unfold Legacy.calculateDistance, pi; cbv zeta. field. Qed.

Lemma legacy_calculateDistance_meridian lat1 lat2 lon :
  0 <= lat2 - lat1 <= 179.9 ->
  Legacy.calculateDistance lat1 lon lat2 lon =
  calculateDistance lat1 lon lat2 lon * calculateDistance lat1 lon lat2 lon
  / (2 * earthRadius).
Proof.
  intros H.
  rewrite calculateDistance_meridian
    by (pose proof PI_bounds; unfold pi; lra).
  rewrite legacy_calculateDistance_eq. unfold earthRadius. field.
Qed.

(** The distance of the earlier revision is symmetric and 0 between a
    point and itself, but it is no length.  Between two points of one
    meridian whose latitudes differ by at most 179.9 degrees it is, in
    exact arithmetic, the square of the distance of the current revision
    divided by twice the radius of the earth.  Between a point at a
    latitude of at least a millionth of a degree, north or south, and
    its mirror image in the equator, moved to a longitude that differs
    by at least 115 degrees, it is negative. *)
Theorem legacy_calculateDistance_is_no_length :
  (forall lat1 lon1 lat2 lon2,
      Legacy.calculateDistance lat1 lon1 lat2 lon2 =
      Legacy.calculateDistance lat2 lon2 lat1 lon1) /\
  (forall lat lon, Legacy.calculateDistance lat lon lat lon = 0) /\
  (forall lat1 lat2 lon,
      Rabs (lat2 - lat1) <= 179.9 ->
      Legacy.calculateDistance lat1 lon lat2 lon =
      calculateDistance lat1 lon lat2 lon * calculateDistance lat1 lon lat2 lon
      / (2 * earthRadius)) /\
  (forall lat lon1 lon2,
      0.000001 <= Rabs lat <= 90 -> 115 <= Rabs (lon2 - lon1) <= 360 ->
      Legacy.calculateDistance lat lon1 (- lat) lon2 < 0).
Proof.
  assert (Hsym : forall lat1 lon1 lat2 lon2,
             Legacy.calculateDistance lat1 lon1 lat2 lon2 =
             Legacy.calculateDistance lat2 lon2 lat1 lon1).
  { intros. rewrite !legacy_calculateDistance_eq. ring. }
  split; [exact Hsym |]. repeat split.
  - intros. rewrite legacy_calculateDistance_eq. ring.
  - intros lat1 lat2 lon H.
    destruct (Rle_dec lat1 lat2) as [Hle | Hgt].
    + apply legacy_calculateDistance_meridian.
      rewrite Rabs_pos_eq in H by lra. lra.
    + rewrite Hsym, (calculateDistance_sym lat1 lon lat2 lon).
      apply legacy_calculateDistance_meridian.
      rewrite Rabs_left in H by lra. lra.
  - intros lat lon1 lon2 [Hlat _] [Hlon _].
    rewrite legacy_calculateDistance_eq.
    set (x := (lon2 - lon1) * (pi / 180)).
    assert (Hsq : 0 < lat * lat).
    { unfold Rabs in Hlat. destruct (Rcase_abs lat); nra. }
    assert (Hxx : 0 < x * x - 4).
    { unfold Rabs in Hlon. destruct (Rcase_abs (lon2 - lon1)).
      - assert (x < -2) by (unfold x, pi; lra). nra.
      - assert (2 < x) by (unfold x, pi; lra). nra. }
    clearbody x.
    replace ((- lat - lat) * (- lat - lat) + lat * - lat * (x * x))
      with (lat * lat * (4 - x * x)) by ring.
    assert (Hk : 0 < earthRadius * (pi / 180) * (pi / 180) / 2)
      by (unfold earthRadius, pi; lra).
    assert (Hneg : lat * lat * (4 - x * x) < 0).
    { pose proof (Rmult_lt_0_compat _ _ Hsq Hxx). lra. }
    set (k := earthRadius * (pi / 180) * (pi / 180) / 2) in *.
    set (v := lat * lat * (4 - x * x)) in *.
    clearbody k v. nra.
Qed.

(** ** Further properties of the validation *)

Lemma resultsLoop_first_result pinCode city result results :
  ValidationResponse.Valid
    (resultsLoop pinCode city (result :: results) noneFound) =
  cityMatches (foundCity (scanResult result noneFound)) city.
Proof.
  cbn [resultsLoop]. cbv zeta.
  destruct (cityMatches _ _) eqn:Hm; [reflexivity |].
  apply resultsLoop_city_kept; [| exact Hm].
  intros E. rewrite E, cityMatches_empty in Hm. discriminate.
Qed.

(** The validation accepts exactly the claimed cities that occur within
    the city extracted from the first result, or within which that city
    occurs (both after lower-casing). *)
Theorem validation_accepts_substring s pinCode city tr result results :
  let claimed := ToLower (TrimSpace city) in
  let extracted := foundCity (scanResult result noneFound) in
  TrimSpace pinCode <> ""%string ->
  claimed <> ""%string ->
  Geocode (mapsClient s) tr (validationRequest pinCode)
    = Ok (result :: results) ->
  exists resp tr',
    ValidatePinCodeWithCity s pinCode city tr = (Ok resp, tr') /\
    (ValidationResponse.Valid resp = true <->
     within claimed extracted \/ within extracted claimed).
Proof.
  intros claimed extracted Hp Hc Hg. eexists _, _. split.
  - apply (ValidatePinCodeWithCity_geocoded _ _ _ _ _ Hp Hc Hg). discriminate.
  - rewrite resultsLoop_first_result. fold claimed extracted.
    unfold cityMatches, within. rewrite orb_true_iff, !Contains_within.
    reflexivity.
Qed.

(** A failure of the geocoding call is returned as a hard error that
    carries its text, and an empty geocoding answer as an invalid PIN
    code without suggestions or details; in both cases after the one
    geocoding call. *)
Theorem validation_geocode_failure s pinCode city tr :
  TrimSpace pinCode <> ""%string ->
  ToLower (TrimSpace city) <> ""%string ->
  (forall err,
      Geocode (mapsClient s) tr (validationRequest pinCode) = Err err ->
      ValidatePinCodeWithCity s pinCode city tr =
      (Err ("geocoding failed: " ++ err)%string,
       tr ++ [GeocodeCall (validationRequest pinCode)])) /\
  (Geocode (mapsClient s) tr (validationRequest pinCode) = Ok [] ->
   ValidatePinCodeWithCity s pinCode city tr =
   (Ok {| ValidationResponse.Valid := false;
          ValidationResponse.Message := "Invalid PIN code: No location found";
          ValidationResponse.Suggestions := [];
          ValidationResponse.Details := None |},
    tr ++ [GeocodeCall (validationRequest pinCode)])).
Proof.
  intros Hp Hc. apply String.eqb_neq in Hp, Hc.
  unfold ValidatePinCodeWithCity. rewrite Hp, Hc. cbn [orb]. cbv zeta.
  fold (validationRequest pinCode). rewrite bind_geocode.
  split; [intros err Hg | intros Hg]; now rewrite Hg.
Qed.

(** The details of an accepted PIN code: the cleaned PIN code, the city
    of the first component that names one, the state and the country of
    the last components that carry them, and the formatted address, all
    of the first geocoding result. *)
Theorem valid_response_details s pinCode city tr result results :
  let components := GeocodingResult.AddressComponents result in
  TrimSpace pinCode <> ""%string ->
  ToLower (TrimSpace city) <> ""%string ->
  Geocode (mapsClient s) tr (validationRequest pinCode)
    = Ok (result :: results) ->
  cityMatches (lowerNameOf (find namesCity components))
    (ToLower (TrimSpace city)) = true ->
  ValidatePinCodeWithCity s pinCode city tr =
  (Ok {| ValidationResponse.Valid := true;
         ValidationResponse.Message := "PIN code and city match successfully";
         ValidationResponse.Suggestions := [];
         ValidationResponse.Details :=
           Some {| Details.PinCode := TrimSpace pinCode;
                   Details.City := lowerNameOf (find namesCity components);
                   Details.State :=
                     longNameOf (findLast (hasType stateTags) components);
                   Details.Country :=
                     longNameOf (findLast (hasType countryTags) components);
                   Details.FormattedAddress :=
                     GeocodingResult.FormattedAddress result |} |},
   tr ++ [GeocodeCall (validationRequest pinCode)]).
Proof.
  intros components Hp Hc Hg Hm.
  rewrite (ValidatePinCodeWithCity_geocoded _ _ _ _ _ Hp Hc Hg) by discriminate.
  assert (Hcity : foundCity (scanResult result noneFound) =
                  lowerNameOf (find namesCity components)).
  { unfold scanResult. now rewrite scanComponents_city. }
  cbn [resultsLoop]. cbv zeta. rewrite Hcity, Hm.
  unfold detailsOf. rewrite Hcity. unfold scanResult.
  rewrite scanComponents_state, scanComponents_country,
    scanComponents_formattedAddress.
  fold components. unfold longNameOf. cbn.
  reflexivity.
Qed.

(** ** Further properties of [GetNearbyLandmarks] *)

Lemma ValidatePinCodeWithCity_Err s pinCode city tr err tr1 :
  ValidatePinCodeWithCity s pinCode city tr = (Err err, tr1) ->
  exists e,
    Geocode (mapsClient s) tr (validationRequest pinCode) = Err e /\
    err = ("geocoding failed: " ++ e)%string /\
    tr1 = tr ++ [GeocodeCall (validationRequest pinCode)].
Proof.
  unfold ValidatePinCodeWithCity.
  destruct (_ || _); [unfold ret; discriminate |].
  cbv zeta. fold (validationRequest pinCode). rewrite bind_geocode.
  destruct (Geocode _ _ _) as [results | e];
    [destruct (List.length results =? 0)%nat; unfold ret; discriminate |].
  intros H. injection H as <- <-. eauto.
Qed.

(** The calls before the nearby search: geocoding calls only, at most
    two, and at most one in address mode; and how the run goes on. *)
Lemma GetNearbyLandmarks_calls s pinCode city address radius tr :
  exists calls,
    Forall (fun c => isGeocodeCall c = true) calls /\
    (List.length calls <= 2)%nat /\
    (address <> ""%string -> (List.length calls <= 1)%nat) /\
    ((exists message,
         GetNearbyLandmarks s pinCode city address radius tr =
         (Ok (softFailure message), tr ++ calls)) \/
     (exists prefix e,
         In prefix ["geocoding address failed: "; "geocoding failed: "]%string /\
         lastCallFailed s tr (tr ++ calls) e /\
         GetNearbyLandmarks s pinCode city address radius tr =
         (Err (prefix ++ e)%string, tr ++ calls)) \/
     (exists location locationAddress,
         GetNearbyLandmarks s pinCode city address radius tr =
         searchLandmarks s location locationAddress radius (tr ++ calls))).
Proof.
  unfold GetNearbyLandmarks.
  destruct (String.eqb_spec address "") as [Ea | Ea]; cbn [negb].
  - destruct (negb (pinCode =? "") && negb (city =? ""))%string.
    2:{ exists []. repeat split; [constructor | cbn; lia | congruence |].
        left. rewrite app_nil_r. unfold ret. eauto. }
    rewrite (bind_run (ValidatePinCodeWithCity s pinCode city)).
    pose proof (ValidatePinCodeWithCity_trace s pinCode city tr) as Htr.
    destruct (ValidatePinCodeWithCity s pinCode city tr)
      as [[validation | err] tr1] eqn:Hv; cbn [snd] in Htr.
    + assert (Hvc : exists vcalls,
                 Forall (fun c => isGeocodeCall c = true) vcalls /\
                 (List.length vcalls <= 1)%nat /\ tr1 = tr ++ vcalls).
      { destruct Htr as [-> | ->];
          [exists []; rewrite app_nil_r | eexists [GeocodeCall _]];
          repeat split; auto; repeat constructor. }
      destruct Hvc as (vcalls & Hg & Hlen & ->).
      destruct (negb (ValidationResponse.Valid validation)).
      * exists vcalls. repeat split; [exact Hg | lia | congruence |].
        left. unfold ret. eauto.
      * cbv zeta. rewrite bind_geocode.
        match goal with
        | |- context [GeocodeCall ?r] => exists (vcalls ++ [GeocodeCall r])
        end.
        repeat split;
          [apply Forall_app; split; [exact Hg | repeat constructor]
          | rewrite length_app; cbn; lia | congruence |].
        rewrite app_assoc.
        destruct (Geocode _ _ _) as [[| first rest] | e] eqn:Hgeo;
          [left | right; right | right; left]; unfold ret; eauto.
        exists "geocoding failed: "%string, e.
        repeat split; [cbn; auto |].
        exists vcalls. left. eexists. split; [| exact Hgeo].
        now rewrite app_assoc.
    + destruct (ValidatePinCodeWithCity_Err _ _ _ _ _ _ Hv)
        as (e & Hgeo & -> & ->).
      eexists [GeocodeCall _].
      repeat split; [repeat constructor | cbn; lia | congruence |].
      right; left. exists "geocoding failed: "%string, e.
      repeat split; [cbn; auto |].
      exists []. left. eexists. split; [reflexivity |].
      rewrite app_nil_r. exact Hgeo.
  - cbv zeta. rewrite bind_geocode.
    match goal with |- context [GeocodeCall ?r] => exists [GeocodeCall r] end.
    repeat split; [repeat constructor | cbn; lia | cbn; lia |].
    destruct (Geocode _ _ _) as [[| first rest] | e] eqn:Hgeo;
      [left | right; right | right; left]; unfold ret; eauto.
    exists "geocoding address failed: "%string, e.
    repeat split; [cbn; auto |].
    exists []. left. eexists. split; [reflexivity |].
    rewrite app_nil_r. exact Hgeo.
Qed.

Lemma Forall_removelast {A} (P : A -> Prop) l :
  Forall P l -> Forall P (removelast l).
Proof.
  induction 1 as [| a l Ha Hl IH]; [constructor |].
  cbn. destruct l; [constructor | now constructor].
Qed.

(** One request for landmarks costs at most three calls to the Maps
    client, and at most two with a street address; only the last call
    can be a nearby search, every call before it is a geocoding call. *)
Theorem maps_call_budget s pinCode city address radius tr :
  exists calls,
    snd (GetNearbyLandmarks s pinCode city address radius tr) = tr ++ calls /\
    (List.length calls <= 3)%nat /\
    (address <> ""%string -> (List.length calls <= 2)%nat) /\
    Forall (fun c => isGeocodeCall c = true) (removelast calls).
Proof.
  destruct (GetNearbyLandmarks_calls s pinCode city address radius tr)
    as (calls & Hg & Hlen & Haddr &
        [(message & E) | [(prefix & e & _ & _ & E) | (location & addr & E)]]);
    rewrite E.
  - exists calls. repeat split; [lia | intros H; specialize (Haddr H); lia |].
    now apply Forall_removelast.
  - exists calls. repeat split; [lia | intros H; specialize (Haddr H); lia |].
    now apply Forall_removelast.
  - rewrite searchLandmarks_run. cbn [snd].
    eexists (calls ++ [NearbySearchCall _]).
    repeat split.
    + now rewrite <- app_assoc.
    + rewrite length_app. cbn. lia.
    + intros H. specialize (Haddr H). rewrite length_app. cbn. lia.
    + now rewrite removelast_last.
Qed.

(** Every hard error of [GetNearbyLandmarks] is an error of the Maps
    client: the call made last failed, and the error returned is the
    client's text behind one of three prefixes.  So a client that answers
    every call never makes [GetNearbyLandmarks] fail; what is wrong with
    the input is reported in a response. *)
Theorem hard_errors_are_client_errors s pinCode city address radius tr :
  (forall err tr',
      GetNearbyLandmarks s pinCode city address radius tr = (Err err, tr') ->
      exists prefix e,
        In prefix ["geocoding address failed: "; "geocoding failed: ";
                   "nearby search failed: "]%string /\
        err = (prefix ++ e)%string /\
        lastCallFailed s tr tr' e) /\
  (clientNeverFails s ->
   exists resp tr',
     GetNearbyLandmarks s pinCode city address radius tr = (Ok resp, tr')).
Proof.
  assert (Herr : forall err tr',
      GetNearbyLandmarks s pinCode city address radius tr = (Err err, tr') ->
      exists prefix e,
        In prefix ["geocoding address failed: "; "geocoding failed: ";
                   "nearby search failed: "]%string /\
        err = (prefix ++ e)%string /\
        lastCallFailed s tr tr' e).
  { intros err tr' Hrun.
    destruct (GetNearbyLandmarks_calls s pinCode city address radius tr)
      as (calls & _ & _ & _ &
          [(message & E) | [(prefix & e & Hp & Hl & E) | (location & addr & E)]]);
      rewrite E in Hrun.
    - discriminate.
    - injection Hrun as <- <-. exists prefix, e.
      repeat split; [destruct Hp as [<- | [<- | []]]; cbn; auto | exact Hl].
    - rewrite searchLandmarks_run in Hrun.
      destruct (NearbySearch _ _ _) as [nearbyResults | e] eqn:Hn;
        [discriminate |].
      injection Hrun as <- <-. exists "nearby search failed: "%string, e.
      repeat split; [cbn; auto |].
      exists calls. right. eexists. split; [| exact Hn].
      now rewrite app_assoc. }
  split; [exact Herr |].
  intros [Hgeo Hnear].
  destruct (GetNearbyLandmarks s pinCode city address radius tr)
    as [[resp | err] tr'] eqn:Hrun; [eauto |].
  destruct (Herr _ _ eq_refl) as (_ & e & _ & _ & calls & [(req & _ & Hf) | (req & _ & Hf)]).
  - destruct (Hgeo (tr ++ calls) req) as [results Hok]. congruence.
  - destruct (Hnear (tr ++ calls) req) as [response Hok]. congruence.
Qed.

(** A response reports success exactly when the nearby search has run
    and was answered; its location then is the location searched around.
    A response without success lists no landmark and leaves the location
    at zero. *)
Theorem success_iff_searched s pinCode city address radius tr resp tr' :
  GetNearbyLandmarks s pinCode city address radius tr = (Ok resp, tr') ->
  (LandmarksResponse.Success resp = true <->
   exists location places, nearbyCandidates s tr tr' location places) /\
  (forall location places,
      nearbyCandidates s tr tr' location places ->
      LandmarksResponse.Location resp =
      {| Location.Lat := LatLng.Lat location;
         Location.Lng := LatLng.Lng location |}) /\
  (LandmarksResponse.Success resp = false ->
   LandmarksResponse.Landmarks resp = [] /\
   LandmarksResponse.Location resp =
   {| Location.Lat := 0; Location.Lng := 0 |}).
Proof.
  intros Hrun.
  destruct (GetNearbyLandmarks_cases s pinCode city address radius tr)
    as (calls & Hg & [(message & E) | [(err & E) | (location & addr & E)]]);
    rewrite E in Hrun.
  - injection Hrun as <- <-. cbn. repeat split; try discriminate.
    + intros (location & places & Hc).
      now apply geocode_calls_no_candidates in Hc.
    + intros location places Hc.
      now apply geocode_calls_no_candidates in Hc.
  - discriminate.
  - rewrite searchLandmarks_run in Hrun.
    destruct (NearbySearch _ _ _) as [nearbyResults | err] eqn:Hn;
      [| discriminate].
    injection Hrun as <- <-.
    assert (Hc : nearbyCandidates s tr
                   (tr ++ calls ++ [NearbySearchCall (nearbyRequest location radius)])
                   location (PlacesSearchResponse.Results nearbyResults)).
    { exists calls, (nearbyRequest location radius), nearbyResults.
      repeat split. exact Hn. }
    rewrite <- app_assoc. cbn [landmarksFound LandmarksResponse.Success
      LandmarksResponse.Location LandmarksResponse.Landmarks].
    repeat split; try discriminate.
    + eauto.
    + intros location' places' Hc'.
      now destruct (nearbyCandidates_unique _ _ _ _ _ _ _ Hc Hc') as [-> _].
Qed.

(** When at most five candidates survive the filter, the landmarks
    returned are the landmarks of all of them (in the order of the
    sort). *)
Theorem few_survivors_all_returned
    s pinCode city address radius tr resp tr' location places :
  GetNearbyLandmarks s pinCode city address radius tr = (Ok resp, tr') ->
  nearbyCandidates s tr tr' location places ->
  (List.length (survivors location places) <= 5)%nat ->
  Permutation
    (map (fun place => scoredLandmark.landmark (scoredPlace location place))
       (survivors location places))
    (LandmarksResponse.Landmarks resp).
Proof.
  intros Hrun Hc Hlen.
  destruct (GetNearbyLandmarks_Ok _ _ _ _ _ _ _ _ Hrun)
    as [(_ & _ & Hno) | (location' & addr & places' & Hc' & ->)];
    [now destruct (Hno _ _ Hc) |].
  destruct (nearbyCandidates_unique _ _ _ _ _ _ _ Hc' Hc) as [-> ->].
  cbn [landmarksFound LandmarksResponse.Landmarks].
  rewrite topLandmarks_firstn, scorePlaces_survivors.
  rewrite firstn_all2.
  - rewrite <- (map_map (scoredPlace location') scoredLandmark.landmark).
    apply Permutation_map, sort_Slice_Permutation.
  - rewrite <- (Permutation_length (sort_Slice_Permutation _ _ byScore)).
    now rewrite length_map.
Qed.

Lemma NoDup_map_filter {A B} (f : A -> B) (p : A -> bool) l :
  NoDup (map f l) -> NoDup (map f (filter p l)).
Proof.
  induction l as [| a l IH]; cbn; intros H; [constructor |].
  inversion H as [| ? ? Hnin Hnd]; subst.
  destruct (p a); cbn; [constructor |]; auto.
  intros Hin. apply Hnin. apply in_map_iff in Hin.
  destruct Hin as (x & <- & Hx). apply filter_In in Hx.
  apply in_map. apply Hx.
Qed.

Lemma NoDup_firstn {A} n (l : list A) : NoDup l -> NoDup (firstn n l).
Proof.
  intros H. rewrite <- (firstn_skipn n l) in H.
  exact (NoDup_app_remove_r _ _ H).
Qed.

(** No place is listed twice: when the candidates of the nearby search
    have distinct place IDs, so have the landmarks returned. *)
Theorem distinct_places_distinct_landmarks
    s pinCode city address radius tr resp tr' location places :
  GetNearbyLandmarks s pinCode city address radius tr = (Ok resp, tr') ->
  nearbyCandidates s tr tr' location places ->
  NoDup (map PlacesSearchResult.PlaceID places) ->
  NoDup (map Landmark.PlaceID (LandmarksResponse.Landmarks resp)).
Proof.
  intros Hrun Hc Hnd.
  destruct (GetNearbyLandmarks_Ok _ _ _ _ _ _ _ _ Hrun)
    as [(_ & _ & Hno) | (location' & addr & places' & Hc' & ->)];
    [now destruct (Hno _ _ Hc) |].
  destruct (nearbyCandidates_unique _ _ _ _ _ _ _ Hc' Hc) as [-> ->].
  cbn [landmarksFound LandmarksResponse.Landmarks].
  rewrite topLandmarks_firstn, map_map, <- firstn_map.
  apply NoDup_firstn.
  eapply Permutation_NoDup;
    [apply Permutation_map, sort_Slice_Permutation |].
  rewrite scorePlaces_survivors, map_map. cbn.
  now apply NoDup_map_filter.
Qed.

Lemma nearbyRequest_truncates location radius radius' :
  0 < radius -> 0 < radius' -> Int_part radius = Int_part radius' ->
  nearbyRequest location radius = nearbyRequest location radius'.
Proof.
  intros H H' E. unfold nearbyRequest, Reqb, uint.
  destruct (Req_dec_T radius 0); [lra |].
  destruct (Req_dec_T radius' 0); [lra |]. now rewrite E.
Qed.

Lemma nearbyRequest_default location :
  nearbyRequest location 0 = nearbyRequest location 1000.
Proof.
  unfold nearbyRequest, Reqb.
  destruct (Req_dec_T 0 0); [| lra].
  destruct (Req_dec_T 1000 0); [lra | reflexivity].
Qed.

Lemma GetNearbyLandmarks_radius s pinCode city address radius radius' tr :
  (forall location,
      nearbyRequest location radius = nearbyRequest location radius') ->
  GetNearbyLandmarks s pinCode city address radius tr =
  GetNearbyLandmarks s pinCode city address radius' tr.
Proof.
  intros Hreq.
  assert (Hs : forall location addr tr0,
             searchLandmarks s location addr radius tr0 =
             searchLandmarks s location addr radius' tr0).
  { intros. now rewrite !searchLandmarks_run, Hreq. }
  unfold GetNearbyLandmarks.
  destruct (negb (address =? "")%string).
  - cbv zeta. rewrite !bind_geocode.
    destruct (Geocode _ _ _) as [[| first rest] | e]; auto.
  - destruct (negb (pinCode =? "") && negb (city =? ""))%string; [| reflexivity].
    rewrite !(bind_run (ValidatePinCodeWithCity s pinCode city)).
    destruct (ValidatePinCodeWithCity s pinCode city tr)
      as [[validation | err] tr1]; [| reflexivity].
    destruct (negb (ValidationResponse.Valid validation)); [reflexivity |].
    cbv zeta. rewrite !bind_geocode.
    destruct (Geocode _ _ _) as [[| first rest] | e]; auto.
Qed.

(** The radius of a request: 0 stands for 1000 meters, and of a positive
    radius only the whole meters count. *)
Theorem radius_default_and_truncation s pinCode city address tr :
  GetNearbyLandmarks s pinCode city address 0 tr =
  GetNearbyLandmarks s pinCode city address 1000 tr /\
  (forall radius radius',
      0 < radius -> 0 < radius' -> Int_part radius = Int_part radius' ->
      GetNearbyLandmarks s pinCode city address radius tr =
      GetNearbyLandmarks s pinCode city address radius' tr).
Proof.
  split.
  - apply GetNearbyLandmarks_radius. intros. apply nearbyRequest_default.
  - intros radius radius' H H' E. apply GetNearbyLandmarks_radius.
    intros. now apply nearbyRequest_truncates.
Qed.

(** ** The HTTP handlers *)

Lemma Header_Get_Del_other key key' h :
  key' <> key -> Header.Get key (Header.Del key' h) = Header.Get key h.
Proof.
  intros Hne. induction h as [| [k v] h IH]; cbn; [reflexivity |].
  destruct (String.eqb_spec k key') as [-> | Hk]; cbn.
  - destruct (String.eqb_spec key' key); [contradiction | exact IH].
  - destruct (k =? key)%string; [reflexivity | exact IH].
Qed.

Lemma Header_Get_Set_same key value h :
  Header.Get key (Header.Set_ key value h) = value.
Proof. cbn. now rewrite String.eqb_refl. Qed.

Lemma Header_Get_Set_other key key' value h :
  key' <> key ->
  Header.Get key (Header.Set_ key' value h) = Header.Get key h.
Proof.
  intros Hne. cbn. destruct (String.eqb_spec key' key); [contradiction |].
  now apply Header_Get_Del_other.
Qed.

(** What [http.Error] sends from a writer nothing has been written to. *)
Lemma http_Error_sent w error code :
  ResponseWriter.Status w = None ->
  ResponseWriter.Status (http.Error w error code) = Some code /\
  ResponseWriter.Body (http.Error w error code) =
    (ResponseWriter.Body w ++ error ++ http.newline)%string /\
  forall key,
    key <> "Content-Length"%string -> key <> "Content-Type"%string ->
    key <> "X-Content-Type-Options"%string ->
    Header.Get key (ResponseWriter.SentHeader (http.Error w error code)) =
    Header.Get key (ResponseWriter.Header w).
Proof.
  destruct w as [h [c |] sh b]; cbn; [discriminate | intros _].
  repeat split. intros key H1 H2 H3.
  change (Header.Get key
            (Header.Set_ "X-Content-Type-Options" "nosniff"
               (Header.Set_ "Content-Type" "text/plain; charset=utf-8"
                  (Header.Del "Content-Length" h))) = Header.Get key h).
  rewrite !Header_Get_Set_other by congruence.
  now apply Header_Get_Del_other.
Qed.

Lemma finish_written w code :
  ResponseWriter.Status w = Some code -> http.finish w = w.
Proof.
  intros H. unfold http.finish, ResponseWriter.WriteHeader. now rewrite H.
Qed.

(** What the server sends for a JSON response written to a writer
    nothing has been written to. *)
Lemma jsonEncode_sent {A} (marshal : A -> option string) v w :
  ResponseWriter.Status w = None ->
  let sent :=
    http.finish
      (jsonEncode marshal v
         (ResponseWriter.SetHeader "Content-Type" "application/json" w)) in
  ResponseWriter.Status sent = Some http.StatusOK /\
  Header.Get "Content-Type" (ResponseWriter.SentHeader sent) =
    "application/json"%string /\
  (forall data, marshal v = Some data ->
     ResponseWriter.Body sent =
     (ResponseWriter.Body w ++ data ++ http.newline)%string) /\
  forall key,
    key <> "Content-Type"%string ->
    Header.Get key (ResponseWriter.SentHeader sent) =
    Header.Get key (ResponseWriter.Header w).
Proof.
  destruct w as [h [c |] sh b]; cbn; [discriminate | intros _].
  unfold jsonEncode. destruct (marshal v) as [data |]; cbn.
  - repeat split.
    + intros data' E. now injection E as <-.
    + intros key Hk.
      change (Header.Get key (Header.Set_ "Content-Type" "application/json" h)
              = Header.Get key h).
      now apply Header_Get_Set_other.
  - repeat split.
    + discriminate.
    + intros key Hk.
      change (Header.Get key (Header.Set_ "Content-Type" "application/json" h)
              = Header.Get key h).
      now apply Header_Get_Set_other.
Qed.

(** A request for landmarks is answered with status 400 when its body
    cannot be decoded, before any call to the Maps client; with status
    200 and a JSON body for every response of the service, soft failures
    included; and with status 500 only when the call made last to the
    Maps client failed, whose error text is then sent in the body. *)
Theorem landmarks_request_status s w r st :
  ResponseWriter.Status w = None ->
  let out := handleGetLandmarks s w r st in
  let sent := http.finish (fst out) in
  (decodeGetLandmarksRequest (Request.Body r) = None ->
   ResponseWriter.Status sent = Some 400%nat /\
   ResponseWriter.Body sent =
     (ResponseWriter.Body w ++ "Invalid request body" ++ http.newline)%string /\
   snd out = st) /\
  (forall req resp tr',
      decodeGetLandmarksRequest (Request.Body r) = Some req ->
      GetNearbyLandmarks s (GetLandmarksRequest.PinCode req)
        (GetLandmarksRequest.City req) (GetLandmarksRequest.Address req)
        (GetLandmarksRequest.Radius req) (calls st) = (Ok resp, tr') ->
      ResponseWriter.Status sent = Some 200%nat /\
      Header.Get "Content-Type" (ResponseWriter.SentHeader sent) =
        "application/json"%string /\
      (forall data, marshalLandmarksResponse resp = Some data ->
         ResponseWriter.Body sent =
         (ResponseWriter.Body w ++ data ++ http.newline)%string)) /\
  (forall req err tr',
      decodeGetLandmarksRequest (Request.Body r) = Some req ->
      GetNearbyLandmarks s (GetLandmarksRequest.PinCode req)
        (GetLandmarksRequest.City req) (GetLandmarksRequest.Address req)
        (GetLandmarksRequest.Radius req) (calls st) = (Err err, tr') ->
      ResponseWriter.Status sent = Some 500%nat /\
      exists prefix e,
        In prefix ["geocoding address failed: "; "geocoding failed: ";
                   "nearby search failed: "]%string /\
        lastCallFailed s (calls st) (calls (snd out)) e /\
        ResponseWriter.Body sent =
        (ResponseWriter.Body w ++
         ("Failed to get landmarks: " ++ prefix ++ e) ++ http.newline)%string).
Proof.
  intros Hw out sent. subst sent out. unfold handleGetLandmarks.
  split; [| split].
  - intros ->. cbn [fst snd].
    destruct (http_Error_sent w "Invalid request body" http.StatusBadRequest Hw)
      as (Hs & Hb & _).
    rewrite (finish_written _ _ Hs).
    repeat split; assumption.
  - intros req resp tr' -> ->. cbn [fst].
    destruct (jsonEncode_sent marshalLandmarksResponse resp w Hw)
      as (Hs & Hc & Hb & _).
    repeat split; assumption.
  - intros req err tr' -> Hrun. rewrite Hrun. cbn [fst snd calls].
    destruct (http_Error_sent w ("Failed to get landmarks: " ++ err)
                http.StatusInternalServerError Hw) as (Hs & Hb & _).
    rewrite (finish_written _ _ Hs).
    split; [exact Hs |].
    destruct (GetNearbyLandmarks_calls s (GetLandmarksRequest.PinCode req)
                (GetLandmarksRequest.City req) (GetLandmarksRequest.Address req)
                (GetLandmarksRequest.Radius req) (calls st))
      as (cs & _ & _ & _ &
          [(message & E) | [(prefix & e & Hp & Hl & E) | (location & addr & E)]]);
      rewrite E in Hrun.
    + discriminate.
    + injection Hrun as <- <-. exists prefix, e.
      repeat split; [destruct Hp as [<- | [<- | []]]; cbn; auto | exact Hl | exact Hb].
    + rewrite searchLandmarks_run in Hrun.
      destruct (NearbySearch _ _ _) as [nearbyResults | e] eqn:Hn;
        [discriminate |].
      injection Hrun as <- <-. exists "nearby search failed: "%string, e.
      repeat split; [cbn; auto | | exact Hb].
      exists cs. right. eexists. split; [| exact Hn].
      now rewrite app_assoc.
Qed.

(** A request for a validation is answered with status 400 when its body
    cannot be decoded, before any call to the Maps client; with status
    200 and a JSON body for every response of the validation, the
    refusals included; and with status 500 only when the geocoding call
    failed, whose error text is then sent in the body. *)
Theorem validation_request_status s w r st :
  ResponseWriter.Status w = None ->
  let out := handleValidatePinCode s w r st in
  let sent := http.finish (fst out) in
  (decodeValidatePinCodeRequest (Request.Body r) = None ->
   ResponseWriter.Status sent = Some 400%nat /\
   ResponseWriter.Body sent =
     (ResponseWriter.Body w ++ "Invalid request body" ++ http.newline)%string /\
   snd out = st) /\
  (forall req resp tr',
      decodeValidatePinCodeRequest (Request.Body r) = Some req ->
      ValidatePinCodeWithCity s (ValidatePinCodeRequest.PinCode req)
        (ValidatePinCodeRequest.City req) (calls st) = (Ok resp, tr') ->
      ResponseWriter.Status sent = Some 200%nat /\
      Header.Get "Content-Type" (ResponseWriter.SentHeader sent) =
        "application/json"%string /\
      (forall data, marshalValidationResponse resp = Some data ->
         ResponseWriter.Body sent =
         (ResponseWriter.Body w ++ data ++ http.newline)%string)) /\
  (forall req err tr',
      decodeValidatePinCodeRequest (Request.Body r) = Some req ->
      ValidatePinCodeWithCity s (ValidatePinCodeRequest.PinCode req)
        (ValidatePinCodeRequest.City req) (calls st) = (Err err, tr') ->
      ResponseWriter.Status sent = Some 500%nat /\
      exists e,
        Geocode (mapsClient s) (calls st)
          (validationRequest (ValidatePinCodeRequest.PinCode req)) = Err e /\
        ResponseWriter.Body sent =
        (ResponseWriter.Body w ++
         ("Validation failed: " ++ "geocoding failed: " ++ e) ++ http.newline)%string).
Proof.
  intros Hw out sent. subst sent out. unfold handleValidatePinCode.
  split; [| split].
  - intros ->. cbn [fst snd].
    destruct (http_Error_sent w "Invalid request body" http.StatusBadRequest Hw)
      as (Hs & Hb & _).
    rewrite (finish_written _ _ Hs).
    repeat split; assumption.
  - intros req resp tr' -> ->. cbn [fst].
    destruct (jsonEncode_sent marshalValidationResponse resp w Hw)
      as (Hs & Hc & Hb & _).
    repeat split; assumption.
  - intros req err tr' -> Hrun. rewrite Hrun. cbn [fst snd calls].
    destruct (http_Error_sent w ("Validation failed: " ++ err)
                http.StatusInternalServerError Hw) as (Hs & Hb & _).
    rewrite (finish_written _ _ Hs).
    split; [exact Hs |].
    destruct (ValidatePinCodeWithCity_Err _ _ _ _ _ _ Hrun) as (e & Hg & -> & _).
    exists e. split; assumption.
Qed.

(** The two handlers leave the headers they do not set as they find
    them. *)
Lemma handleValidatePinCode_keeps_header s w r st key :
  ResponseWriter.Status w = None ->
  key <> "Content-Length"%string -> key <> "Content-Type"%string ->
  key <> "X-Content-Type-Options"%string ->
  Header.Get key
    (ResponseWriter.SentHeader
       (http.finish (fst (handleValidatePinCode s w r st)))) =
  Header.Get key (ResponseWriter.Header w).
Proof.
  intros Hw H1 H2 H3. unfold handleValidatePinCode.
  destruct (decodeValidatePinCodeRequest _) as [req |].
  - destruct (ValidatePinCodeWithCity _ _ _ _) as [[resp | err] tr']; cbn [fst].
    + now apply (jsonEncode_sent marshalValidationResponse resp w Hw).
    + destruct (http_Error_sent w ("Validation failed: " ++ err)
                  http.StatusInternalServerError Hw) as (Hs & _ & Hk).
      rewrite (finish_written _ _ Hs). now apply Hk.
  - cbn [fst].
    destruct (http_Error_sent w "Invalid request body" http.StatusBadRequest Hw)
      as (Hs & _ & Hk).
    rewrite (finish_written _ _ Hs). now apply Hk.
Qed.

Lemma handleGetLandmarks_keeps_header s w r st key :
  ResponseWriter.Status w = None ->
  key <> "Content-Length"%string -> key <> "Content-Type"%string ->
  key <> "X-Content-Type-Options"%string ->
  Header.Get key
    (ResponseWriter.SentHeader
       (http.finish (fst (handleGetLandmarks s w r st)))) =
  Header.Get key (ResponseWriter.Header w).
Proof.
  intros Hw H1 H2 H3. unfold handleGetLandmarks.
  destruct (decodeGetLandmarksRequest _) as [req |].
  - destruct (GetNearbyLandmarks _ _ _ _ _ _) as [[resp | err] tr']; cbn [fst].
    + now apply (jsonEncode_sent marshalLandmarksResponse resp w Hw).
    + destruct (http_Error_sent w ("Failed to get landmarks: " ++ err)
                  http.StatusInternalServerError Hw) as (Hs & _ & Hk).
      rewrite (finish_written _ _ Hs). now apply Hk.
  - cbn [fst].
    destruct (http_Error_sent w "Invalid request body" http.StatusBadRequest Hw)
      as (Hs & _ & Hk).
    rewrite (finish_written _ _ Hs). now apply Hk.
Qed.

(** [corsMiddleware] around a handler that keeps the three CORS headers:
    they are sent with the response. *)
Lemma corsMiddleware_headers (next : Handler) w r st :
  ResponseWriter.Status w = None ->
  (forall w0 key,
      ResponseWriter.Status w0 = None ->
      In key ["Access-Control-Allow-Origin"; "Access-Control-Allow-Methods";
              "Access-Control-Allow-Headers"]%string ->
      Header.Get key
        (ResponseWriter.SentHeader (http.finish (fst (next w0 r st)))) =
      Header.Get key (ResponseWriter.Header w0)) ->
  corsHeadersSent (http.finish (fst (corsMiddleware next w r st))).
Proof.
  intros Hw Hnext. unfold corsMiddleware, corsHeadersSent. cbv zeta.
  destruct (Request.Method r =? "OPTIONS")%string.
  - destruct w as [h [c |] sh b]; [discriminate |]. cbn. repeat split.
  - rewrite !Hnext by (cbn; auto). cbn. repeat split.
Qed.

(** Every response of the two API handlers behind [corsMiddleware]
    carries the three CORS headers: the error responses with status 400
    and 500 as well as the JSON responses. *)
Theorem cors_headers_on_api_responses s w r st :
  ResponseWriter.Status w = None ->
  corsHeadersSent
    (http.finish (fst (corsMiddleware (handleValidatePinCode s) w r st))) /\
  corsHeadersSent
    (http.finish (fst (corsMiddleware (handleGetLandmarks s) w r st))).
Proof.
  intros Hw. split; apply corsMiddleware_headers; try exact Hw;
    intros w0 key Hw0 Hk;
    [apply handleValidatePinCode_keeps_header
    | apply handleGetLandmarks_keeps_header];
    try exact Hw0;
    destruct Hk as [<- | [<- | [<- | []]]]; discriminate.
Qed.

(** A preflight request never reaches the router: the handler that
    [main] serves logs it, answers it with status 200, the three CORS
    headers and no body, and makes no call to the Maps client, whatever
    routes are registered. *)
Theorem preflight_short_circuits w r st :
  Request.Method r = "OPTIONS"%string ->
  ResponseWriter.Status w = None ->
  let out := mainHandler w r st in
  ResponseWriter.Status (fst out) = Some 200%nat /\
  ResponseWriter.Body (fst out) = ResponseWriter.Body w /\
  corsHeadersSent (fst out) /\
  calls (snd out) = calls st /\
  logged (snd out) =
    logged st ++
    [("[OPTIONS] " ++ Request.RequestURI r ++ " " ++ Request.RemoteAddr r)%string].
Proof.
  intros Hm Hw. unfold mainHandler, loggingMiddleware, corsMiddleware.
  cbv zeta. rewrite Hm. cbn [String.eqb Ascii.eqb Bool.eqb fst snd calls logged].
  destruct w as [h [c |] sh b]; [discriminate |].
  unfold corsHeadersSent. cbn. repeat split.
Qed.

(** ** The earlier revision *)

Lemma legacyLoop_firstn location places i landmarks :
  legacyLoop location i places landmarks =
  landmarks ++ map (legacyLandmark location) (firstn (3 - i) places).
Proof.
  revert i landmarks. induction places as [| p ps IH]; intros i landmarks.
  - cbn. rewrite firstn_nil. cbn. now rewrite app_nil_r.
  - cbn [legacyLoop]. destruct (Nat.leb_spec 3 i) as [Hi | Hi].
    + replace (3 - i)%nat with 0%nat by lia. cbn. now rewrite app_nil_r.
    + rewrite IH. replace (3 - i)%nat with (S (3 - S i)) by lia.
      cbn [firstn map]. now rewrite <- app_assoc.
Qed.

(** The earlier revision of [GetNearbyLandmarks] returns, after a nearby
    search, the landmarks of the first three candidates in the order of
    the search: it skips none, computes no score and does not sort. *)
Theorem legacy_first_three_unfiltered s pinCode city radius tr resp tr' :
  legacyGetNearbyLandmarks s pinCode city radius tr = (Ok resp, tr') ->
  Legacy.LandmarksResponse.Success resp = true ->
  exists location places,
    nearbyCandidates s tr tr' location places /\
    Legacy.LandmarksResponse.Landmarks resp =
      map (legacyLandmark location) (firstn 3 places) /\
    Legacy.LandmarksResponse.Message resp =
      "Landmarks fetched successfully"%string.
Proof.
  unfold legacyGetNearbyLandmarks.
  rewrite (bind_run (ValidatePinCodeWithCity s pinCode city)).
  pose proof (ValidatePinCodeWithCity_trace s pinCode city tr) as Htr.
  destruct (ValidatePinCodeWithCity s pinCode city tr)
    as [[validation | err] tr1]; cbn [snd] in Htr; [| discriminate].
  destruct (negb (ValidationResponse.Valid validation)).
  { unfold ret. intros H. injection H as <- <-. discriminate. }
  cbv zeta. rewrite bind_geocode.
  destruct (Geocode _ _ _) as [[| first rest] | e]; [| | discriminate].
  { unfold ret. intros H. injection H as <- <-. discriminate. }
  unfold bind, orErrorf, callNearbySearch, ret.
  destruct (NearbySearch _ _ _) as [nearbyResults | e] eqn:Hn; [| discriminate].
  intros H _. injection H as <- <-. cbn.
  eexists _, _. split; [| split; [apply (legacyLoop_firstn _ _ 0 []) | reflexivity]].
  assert (Hv : exists vcalls, tr1 = tr ++ vcalls).
  { destruct Htr as [-> | ->]; [exists []; now rewrite app_nil_r | eauto]. }
  destruct Hv as (vcalls & ->).
  eexists (vcalls ++ [GeocodeCall _]), _, nearbyResults.
  rewrite !app_assoc. repeat split. exact Hn.
Qed.

End Service.

(** * Examples: an implementation of the contract of [sort.Slice] *)

Lemma insertSorted_Permutation {A} (less : A -> A -> bool) a x :
  Permutation (a :: x) (insertSorted less a x).
Proof.
  induction x as [| b x IH]; cbn; [reflexivity |].
  destruct (less a b); [reflexivity |].
  rewrite perm_swap. now constructor.
Qed.

Lemma insertionSort_Permutation (A : Type) (x : list A) less :
  Permutation x (insertionSort A x less).
Proof.
  induction x as [| a x IH]; cbn; [constructor |].
  rewrite <- insertSorted_Permutation. now constructor.
Qed.

Lemma insertSorted_HdRel {A} (less : A -> A -> bool) a b x :
  less a b = false ->
  HdRel (fun a b => less b a = false) b x ->
  HdRel (fun a b => less b a = false) b (insertSorted less a x).
Proof.
  intros Hab Hd. destruct x as [| c x]; cbn; [now constructor |].
  destruct (less a c); constructor; [exact Hab |].
  now inversion Hd.
Qed.

Lemma insertSorted_sorted {A} (less : A -> A -> bool) a x :
  StrictWeakOrder less -> SortedBy less x ->
  SortedBy less (insertSorted less a x).
Proof.
  intros (Hirr & Htr & _) Hs. unfold SortedBy in *.
  induction Hs as [| b x Hs IH Hd]; cbn; [repeat constructor |].
  destruct (less a b) eqn:Hab.
  - constructor; [now constructor |]. constructor.
    destruct (less b a) eqn:Hba; [| reflexivity].
    pose proof (Htr _ _ _ Hab Hba) as Haa. now rewrite Hirr in Haa.
  - constructor; [exact IH |]. now apply insertSorted_HdRel.
Qed.

Lemma insertionSort_sorted (A : Type) (x : list A) less :
  StrictWeakOrder less -> SortedBy less (insertionSort A x less).
Proof.
  intros Hless. induction x as [| a x IH]; cbn; [constructor |].
  now apply insertSorted_sorted.
Qed.

(** * Examples: strings *)

Example TrimSpaceASCII_example :
  strings.TrimSpaceASCII "  Kanpur Nagar " = "Kanpur Nagar"%string /\
  strings.TrimSpaceASCII "   " = ""%string.
Proof. split; reflexivity. Qed.

Example ToLowerASCII_example :
  strings.ToLowerASCII "Kanpur Nagar 208001" = "kanpur nagar 208001"%string.
Proof. reflexivity. Qed.

Example Sprintf_d_example :
  Sprintf_d 0 = "0"%string /\ Sprintf_d 5 = "5"%string /\
  Sprintf_d 12 = "12"%string.
Proof. repeat split. Qed.

Example Contains_example :
  strings.Contains "kanpur nagar" "nagar" = true /\
  strings.Contains "kanpur" "kanpur nagar" = false /\
  strings.Contains "" "" = true.
Proof. repeat split. Qed.

(** * Examples: validation *)



(** A result without a city component accepts the claimed city Delhi. *)
Lemma missing_city_matches_any_witness :
  exists resp details tr',
    ValidatePinCodeWithCity strings.ToLowerASCII strings.TrimSpaceASCII
      noCityService "208001" "Delhi" [] = (Ok resp, tr') /\
    ValidationResponse.Valid resp = true /\
    ValidationResponse.Details resp = Some details /\
    Details.City details = ""%string.
Proof.
  apply (missing_city_matches_any
           strings.ToLowerASCII strings.TrimSpaceASCII
           noCityService "208001" "Delhi" [] noCityResult []).
  - cbv. discriminate.
  - cbv. discriminate.
  - reflexivity.
  - intros c Hin. cbn in Hin.
    destruct Hin as [<- | [<- | [<- | []]]]; reflexivity.
Defined.

(** C6, as the specification states it, fails: of two state components
    the second one is extracted, and of two country components the
    second one. *)
Lemma first_match_wins_counterexample :
  ~ firstMatchWins strings.ToLowerASCII twoStatesResult
      (scanResult strings.ToLowerASCII twoStatesResult noneFound).
Proof.
  intros (_ & Hstate & _). cbv in Hstate. discriminate.
Qed.

Example twoStatesResult_last_wins :
  let f := scanResult strings.ToLowerASCII twoStatesResult noneFound in
  foundCity f = "kanpur"%string /\
  foundState f = "Kanpur Division"%string /\
  foundCountry f = "Bharat"%string.
Proof. cbv. repeat split. Qed.

(** * Examples: landmarks *)

(** A run in address mode against a client with constant answers. *)
Lemma address_run ToLower TrimSpace sort_Slice first rest places
    pinCode city address radius tr :
  address <> ""%string ->
  GetNearbyLandmarks ToLower TrimSpace sort_Slice
    {| mapsClient := constantMaps (first :: rest) places |}
    pinCode city address radius tr =
  (Ok (landmarksFound sort_Slice
         (AddressGeometry.Location (GeocodingResult.Geometry first))
         (GeocodingResult.FormattedAddress first) places),
   tr ++ [GeocodeCall {| GeocodingRequest.Address := TrimSpace address;
                         GeocodingRequest.Components := [] |}]
      ++ [NearbySearchCall
            (nearbyRequest
               (AddressGeometry.Location (GeocodingResult.Geometry first))
               radius)]).
Proof.
  intros Ha. apply String.eqb_neq in Ha.
  unfold GetNearbyLandmarks. rewrite Ha. cbn [negb]. cbv zeta.
  rewrite bind_geocode. cbn [mapsClient constantMaps Geocode].
  rewrite searchLandmarks_run. cbn [mapsClient constantMaps NearbySearch].
  cbn [PlacesSearchResponse.Results]. now rewrite <- app_assoc.
Qed.

Lemma address_run_candidates first rest places calls tr address radius :
  calls = [GeocodeCall {| GeocodingRequest.Address := address;
                          GeocodingRequest.Components := [] |}] ->
  nearbyCandidates {| mapsClient := constantMaps (first :: rest) places |} tr
    (tr ++ calls ++
       [NearbySearchCall
          (nearbyRequest
             (AddressGeometry.Location (GeocodingResult.Geometry first))
             radius)])
    (AddressGeometry.Location (GeocodingResult.Geometry first)) places.
Proof.
  intros ->. eexists [_], _, _. repeat split.
Qed.

Lemma north_distance :
  calculateDistance 26.45 80.33 26.46 80.33 =
  earthRadius * ((26.46 - 26.45) * (pi / 180)).
Proof.
  apply calculateDistance_meridian.
  pose proof PI2_1. unfold pi. lra.
Qed.

Lemma north_distance_bounds :
  1111 < calculateDistance 26.45 80.33 26.46 80.33 < 1112.
Proof. rewrite north_distance. unfold earthRadius, pi. lra. Qed.

Lemma postOffice_skipped : skipped kanpurLocation postOffice = true.
Proof.
  unfold skipped, distanceTo. cbn. rewrite calculateDistance_same.
  replace (Rltb 0 10) with true; [reflexivity |].
  symmetry. apply Rltb_true. lra.
Qed.

Lemma no_reviews_skipped name lat lng rating :
  skipped kanpurLocation (placeAt name lat lng rating 0) = true.
Proof. unfold skipped. cbn. apply orb_true_r. Qed.

Lemma north_kept name rating reviews :
  reviews <> 0%Z ->
  skipped kanpurLocation (placeAt name 26.46 80.33 rating reviews) = false.
Proof.
  intros Hn. unfold skipped, distanceTo. cbn.
  apply orb_false_iff. split; [| now apply Z.eqb_neq].
  apply Rltb_false. pose proof north_distance_bounds. lra.
Qed.

Lemma kanpur_survivors : survivors kanpurLocation kanpurPlaces = kanpurSurvivors.
Proof.
  unfold survivors, kanpurPlaces. cbn [filter].
  rewrite postOffice_skipped.
  unfold kiosk, stall. rewrite !no_reviews_skipped.
  unfold museum, temple, garage, cafe, bank, park.
  rewrite !north_kept by discriminate. reflexivity.
Qed.

Lemma empty_area_survivors : survivors kanpurLocation [postOffice; kiosk] = [].
Proof.
  unfold survivors. cbn [filter].
  unfold kiosk. now rewrite postOffice_skipped, no_reviews_skipped.
Qed.

(** Among the candidates to the north with 9 reviews the rating decides
    the order. *)
Lemma north_byScore name1 rating1 name2 rating2 :
  byScore (scoredPlace kanpurLocation (placeAt name1 26.46 80.33 rating1 9))
          (scoredPlace kanpurLocation (placeAt name2 26.46 80.33 rating2 9))
  = Rgtb rating1 rating2.
Proof.
  unfold byScore. cbn. unfold popScore, distanceTo; cbn.
  set (d := calculateDistance 26.45 80.33 26.46 80.33).
  assert (Hd : 0 <= d) by apply calculateDistance_nonneg.
  assert (HL : 0 < math.Log10 (9 + 1)).
  { rewrite <- Log10_1. apply Log10_lt; lra. }
  assert (Hk : 0 < math.Log10 (9 + 1) / (1 + d / 1000))
    by (apply Rdiv_lt_0_compat; lra).
  set (k := math.Log10 (9 + 1) / (1 + d / 1000)) in *.
  replace (rating1 * math.Log10 (9 + 1) / (1 + d / 1000)) with (rating1 * k)
    by (unfold k, Rdiv; ring).
  replace (rating2 * math.Log10 (9 + 1) / (1 + d / 1000)) with (rating2 * k)
    by (unfold k, Rdiv; ring).
  clearbody k.
  destruct (Rgtb rating1 rating2) eqn:E.
  - apply Rgtb_true in E. apply Rgtb_true. nra.
  - apply Rgtb_false in E. apply Rgtb_false. nra.
Qed.

Ltac compare_ratings :=
  match goal with
  | |- context [Rgtb ?a ?b] =>
      first [ replace (Rgtb a b) with true by (symmetry; apply Rgtb_true; lra)
            | replace (Rgtb a b) with false by (symmetry; apply Rgtb_false; lra) ]
  end.

Lemma kanpur_sorted :
  insertionSort _ (map (scoredPlace kanpurLocation) kanpurSurvivors) byScore =
  map (scoredPlace kanpurLocation) [temple; park; cafe; museum; bank; garage].
Proof.
  unfold kanpurSurvivors, museum, temple, garage, cafe, bank, park.
  cbn [map insertionSort fold_right insertSorted].
  repeat (rewrite north_byScore; compare_ratings;
          cbn [insertSorted]).
  reflexivity.
Qed.

Lemma kanpur_landmarksFound :
  landmarksFound insertionSort kanpurLocation
    "Kanpur, Uttar Pradesh 208001, India" kanpurPlaces
  = kanpurResponse.
Proof.
  unfold landmarksFound. cbv zeta.
  rewrite scorePlaces_survivors, kanpur_survivors.
  unfold topLandmarks. rewrite kanpur_sorted. reflexivity.
Qed.

Lemma kanpur_run :
  GetNearbyLandmarks strings.ToLowerASCII strings.TrimSpaceASCII insertionSort
    kanpurService "" "" "Mall Road, Kanpur" 500 [] =
  (Ok kanpurResponse, kanpurTrace).
Proof.
  unfold kanpurService. rewrite address_run by discriminate.
  now rewrite <- kanpur_landmarksFound.
Qed.

Lemma kanpur_candidates :
  nearbyCandidates kanpurService [] kanpurTrace kanpurLocation kanpurPlaces.
Proof.
  exact (address_run_candidates kanpurResult [] kanpurPlaces _ []
           "Mall Road, Kanpur" 500 eq_refl).
Qed.

(** The landmarks returned around Kanpur are at their computed distance
    from the resolved location, not closer than 10 meters, and have
    reviews. *)
Lemma excluded_candidates_never_returned_witness :
  Forall
    (fun l =>
       Landmark.Distance l =
         calculateDistance 26.45 80.33
           (Location.Lat (Landmark.Location l))
           (Location.Lng (Landmark.Location l)) /\
       ~ Landmark.Distance l < 10 /\
       Landmark.UserRatings l <> 0%Z)
    (LandmarksResponse.Landmarks kanpurResponse).
Proof.
  exact (proj1 (excluded_candidates_never_returned
                  strings.ToLowerASCII strings.TrimSpaceASCII insertionSort
                  insertionSort_Permutation
                  kanpurService "" "" "Mall Road, Kanpur" 500 []
                  kanpurResponse kanpurTrace kanpur_run)).
Defined.


(** The scores of the landmarks returned around Kanpur follow the
    formula. *)
Lemma popularity_score_formula_witness :
  Forall
    (fun l =>
       Landmark.PopScore l =
       Landmark.Rating l * math.Log10 (IZR (Landmark.UserRatings l) + 1)
       / (1 + Landmark.Distance l / 1000))
    (LandmarksResponse.Landmarks kanpurResponse).
Proof.
  exact (proj2 (popularity_score_formula
                  strings.ToLowerASCII strings.TrimSpaceASCII insertionSort
                  insertionSort_Permutation)
           kanpurService ""%string ""%string "Mall Road, Kanpur"%string 500 []
           kanpurResponse kanpurTrace kanpur_run).
Defined.

(** Where only the query point itself and a place without reviews are
    found, the service answers with the message for no landmarks. *)
Lemma no_survivor_descriptive_message_witness :
  exists resp,
    GetNearbyLandmarks strings.ToLowerASCII strings.TrimSpaceASCII
      insertionSort emptyAreaService "" "" "Mall Road, Kanpur" 500 [] =
    (Ok resp, kanpurTrace) /\
    LandmarksResponse.Success resp = true /\
    LandmarksResponse.Landmarks resp = [] /\
    LandmarksResponse.Message resp = noLandmarksMessage.
Proof.
  assert (Hrun :
    GetNearbyLandmarks strings.ToLowerASCII strings.TrimSpaceASCII
      insertionSort emptyAreaService "" "" "Mall Road, Kanpur" 500 [] =
    (Ok (landmarksFound insertionSort kanpurLocation
           "Kanpur, Uttar Pradesh 208001, India" [postOffice; kiosk]),
     kanpurTrace)).
  { unfold emptyAreaService. now rewrite address_run by discriminate. }
  eexists. split; [exact Hrun |].
  apply (proj1 (no_survivor_descriptive_message
                  strings.ToLowerASCII strings.TrimSpaceASCII insertionSort
                  insertionSort_Permutation
                  emptyAreaService "" "" "Mall Road, Kanpur" 500 [] _ _ Hrun)
           kanpurLocation [postOffice; kiosk]).
  - exact (address_run_candidates kanpurResult [] [postOffice; kiosk] _ []
             "Mall Road, Kanpur" 500 eq_refl).
  - exact empty_area_survivors.
Defined.

(** PIN code 208001 with the claimed city Delhi in postal-code mode:
    a soft failure with the message of the validation, after the one
    geocoding call of the validation. *)
Lemma invalid_pin_code_short_circuits_witness :
  GetNearbyLandmarks strings.ToLowerASCII strings.TrimSpaceASCII insertionSort
    kanpurService "208001" "Delhi" "" 500 [] =
  (Ok {| LandmarksResponse.Success := false;
         LandmarksResponse.Message :=
           "PIN code 208001 does not belong to delhi";
         LandmarksResponse.Landmarks := [];
         LandmarksResponse.Location :=
           {| Location.Lat := 0; Location.Lng := 0 |} |},
   [GeocodeCall
      {| GeocodingRequest.Address := "208001";
         GeocodingRequest.Components := [(ComponentPostalCode, "208001"%string)] |}]).
Proof.
  refine (proj1 (proj1 (invalid_pin_code_short_circuits
                   strings.ToLowerASCII strings.TrimSpaceASCII insertionSort
                   kanpurService "208001" "Delhi" 500 [] _ _)
                   (mismatchResponse "208001" "delhi"
                      (scanResult strings.ToLowerASCII kanpurResult noneFound))
                   _ _ _));
    [discriminate | discriminate | reflexivity | reflexivity].
Defined.

(** * Examples: the remaining properties *)

(** The score of the example candidates: a better rating, more reviews
    and a shorter distance each give a score at least as high. *)
Lemma popScore_monotone_witness :
  popScore 2 9 1000 <= popScore 4 9 1000 /\
  popScore 4 9 1000 <= popScore 4 99 1000 /\
  popScore 4 9 2000 <= popScore 4 9 1000.
Proof.
  destruct popScore_monotone as (Hrating & Hreviews & Hdistance).
  split; [| split].
  - apply Hrating; lra || lia.
  - apply Hreviews; lra || lia.
  - apply Hdistance; lra || lia.
Defined.

(** PIN code 208001 with the claimed city Kanpur is accepted on the
    first result. *)
Lemma first_result_decides_witness :
  exists resp tr',
    ValidatePinCodeWithCity strings.ToLowerASCII strings.TrimSpaceASCII
      kanpurService "208001" "Kanpur" [] = (Ok resp, tr') /\
    ValidationResponse.Valid resp = true.
Proof.
  destruct (first_result_decides
              strings.ToLowerASCII strings.TrimSpaceASCII
              kanpurService "208001" "Kanpur" [] kanpurResult [])
    as (resp & tr' & Hrun & Hvalid).
  - cbv. discriminate.
  - cbv. discriminate.
  - reflexivity.
  - exists resp, tr'. split; [exact Hrun | exact Hvalid].
Defined.

(** A PIN code of blanks is refused before any call. *)
Lemma empty_input_no_call_witness :
  ValidatePinCodeWithCity strings.ToLowerASCII strings.TrimSpaceASCII
    kanpurService "   " "Kanpur" [] =
  (Ok {| ValidationResponse.Valid := false;
         ValidationResponse.Message := "PIN code and city are required";
         ValidationResponse.Suggestions := [];
         ValidationResponse.Details := None |}, []).
Proof.
  apply (empty_input_no_call strings.ToLowerASCII strings.TrimSpaceASCII
           kanpurService "   " "Kanpur" []).
  left. reflexivity.
Defined.

Lemma address_takes_precedence_witness :
  GetNearbyLandmarks strings.ToLowerASCII strings.TrimSpaceASCII insertionSort
    kanpurService "208001" "Delhi" "Mall Road, Kanpur" 500 [] =
  GetNearbyLandmarks strings.ToLowerASCII strings.TrimSpaceASCII insertionSort
    kanpurService "" "" "Mall Road, Kanpur" 500 [].
Proof.
  apply (address_takes_precedence
           strings.ToLowerASCII strings.TrimSpaceASCII insertionSort
           kanpurService "208001" "Delhi" "" "" "Mall Road, Kanpur" 500 []).
  discriminate.
Defined.

(** A PIN code alone selects no input mode. *)
Lemma no_input_mode_soft_failure_witness :
  GetNearbyLandmarks strings.ToLowerASCII strings.TrimSpaceASCII insertionSort
    kanpurService "208001" "" "" 500 [] =
  (Ok {| LandmarksResponse.Success := false;
         LandmarksResponse.Message :=
           "Please provide either an address OR both pin code and city";
         LandmarksResponse.Landmarks := [];
         LandmarksResponse.Location :=
           {| Location.Lat := 0; Location.Lng := 0 |} |}, []).
Proof.
  apply (no_input_mode_soft_failure
           strings.ToLowerASCII strings.TrimSpaceASCII insertionSort
           kanpurService "208001" "" 500 []).
  right. reflexivity.
Defined.

(** Matching is case-insensitive and works in both directions: the
    claimed city may be a part of the geocoded one, or contain it. *)
Example kanpur_nagar_matches :
  cityMatches "kanpur nagar" (strings.ToLowerASCII "Kanpur") = true /\
  cityMatches "kanpur" (strings.ToLowerASCII "Kanpur Nagar") = true /\
  cityMatches "kanpur" (strings.ToLowerASCII "Delhi") = false.
Proof. repeat split. Qed.


(** * Examples: distances, scores and the validation *)

(** One degree of latitude north of Kanpur. *)
Lemma meridian_distance_is_arc_witness :
  calculateDistance 26.45 80.33 27.45 80.33 =
  earthRadius * ((27.45 - 26.45) * (pi / 180)).
Proof.
  apply (meridian_distance_is_arc 26.45 27.45 80.33). lra.
Defined.

(** The score of a place with rating 4.5 and 120 reviews at 1111 meters. *)
Lemma popScore_bounds_witness :
  0 <= popScore 4.5 120 1111 <= 4.5 * math.Log10 (IZR 120 + 1).
Proof.
  apply (popScore_bounds 4.5 120 1111); lra || lia.
Defined.

(** An unrated place scores 0 whatever its reviews, a rated one with
    reviews scores above 0. *)
Lemma popScore_zero_iff_witness :
  popScore 0 120 1111 = 0 /\ 0 < popScore 4.5 120 1111.
Proof.
  split.
  - apply (proj1 (popScore_zero_iff 0 120 1111 ltac:(lra) ltac:(lia) ltac:(lra))).
    now left.
  - apply (proj2 (popScore_zero_iff 4.5 120 1111 ltac:(lra) ltac:(lia) ltac:(lra)));
      lra || lia.
Defined.

(** A part of the name of the city is accepted. *)
Lemma validation_accepts_substring_witness :
  exists resp tr',
    ValidatePinCodeWithCity strings.ToLowerASCII strings.TrimSpaceASCII
      kanpurService "208001" " Kan " [] = (Ok resp, tr') /\
    (ValidationResponse.Valid resp = true <->
     within "kan" "kanpur" \/ within "kanpur" "kan").
Proof.
  apply (validation_accepts_substring
           strings.ToLowerASCII strings.TrimSpaceASCII
           kanpurService "208001" " Kan " [] kanpurResult []).
  - cbv. discriminate.
  - cbv. discriminate.
  - reflexivity.
Defined.

(** Out of quota, the validation fails with the text of the client. *)
Lemma validation_geocode_failure_witness :
  ValidatePinCodeWithCity strings.ToLowerASCII strings.TrimSpaceASCII
    offlineService "208001" "Kanpur" [] =
  (Err "geocoding failed: OVER_QUERY_LIMIT",
   [GeocodeCall
      {| GeocodingRequest.Address := "208001";
         GeocodingRequest.Components := [(ComponentPostalCode, "208001"%string)] |}]).
Proof.
  refine (proj1 (validation_geocode_failure
                   strings.ToLowerASCII strings.TrimSpaceASCII
                   offlineService "208001" "Kanpur" [] _ _)
            "OVER_QUERY_LIMIT"%string _);
    [cbv; discriminate | cbv; discriminate | reflexivity].
Defined.

(** The details for PIN code 208001 and the claimed city KANPUR. *)
Lemma valid_response_details_witness :
  ValidatePinCodeWithCity strings.ToLowerASCII strings.TrimSpaceASCII
    kanpurService " 208001 " "KANPUR" [] =
  (Ok {| ValidationResponse.Valid := true;
         ValidationResponse.Message := "PIN code and city match successfully";
         ValidationResponse.Suggestions := [];
         ValidationResponse.Details :=
           Some {| Details.PinCode := "208001";
                   Details.City := "kanpur";
                   Details.State := "Uttar Pradesh";
                   Details.Country := "India";
                   Details.FormattedAddress :=
                     "Kanpur, Uttar Pradesh 208001, India" |} |},
   [GeocodeCall
      {| GeocodingRequest.Address := "208001";
         GeocodingRequest.Components := [(ComponentPostalCode, "208001"%string)] |}]).
Proof.
  refine (valid_response_details
            strings.ToLowerASCII strings.TrimSpaceASCII
            kanpurService " 208001 " "KANPUR" [] kanpurResult [] _ _ _ _);
    [cbv; discriminate | cbv; discriminate | reflexivity | reflexivity].
Defined.

(** * Examples: runs of [GetNearbyLandmarks] *)

(** The response around Kanpur reports success: the nearby search ran. *)
Lemma success_iff_searched_witness :
  LandmarksResponse.Success kanpurResponse = true <->
  exists location places,
    nearbyCandidates kanpurService [] kanpurTrace location places.
Proof.
  exact (proj1 (success_iff_searched
                  strings.ToLowerASCII strings.TrimSpaceASCII insertionSort
                  kanpurService "" "" "Mall Road, Kanpur" 500 []
                  kanpurResponse kanpurTrace kanpur_run)).
Defined.

Lemma quiet_area_survivors :
  survivors kanpurLocation [postOffice; museum; temple] = [museum; temple].
Proof.
  unfold survivors. cbn [filter]. rewrite postOffice_skipped.
  unfold museum, temple. rewrite !north_kept by discriminate. reflexivity.
Qed.

Lemma quiet_area_run :
  GetNearbyLandmarks strings.ToLowerASCII strings.TrimSpaceASCII insertionSort
    quietAreaService "" "" "Mall Road, Kanpur" 500 [] =
  (Ok (landmarksFound insertionSort kanpurLocation
         "Kanpur, Uttar Pradesh 208001, India" [postOffice; museum; temple]),
   kanpurTrace).
Proof. unfold quietAreaService. now rewrite address_run by discriminate. Qed.

(** Where two candidates survive, both are returned. *)
Lemma few_survivors_all_returned_witness :
  Permutation
    (map (fun place => scoredLandmark.landmark (scoredPlace kanpurLocation place))
       [museum; temple])
    (LandmarksResponse.Landmarks
       (landmarksFound insertionSort kanpurLocation
          "Kanpur, Uttar Pradesh 208001, India" [postOffice; museum; temple])).
Proof.
  pose proof (few_survivors_all_returned
                strings.ToLowerASCII strings.TrimSpaceASCII insertionSort
                insertionSort_Permutation
                quietAreaService "" "" "Mall Road, Kanpur" 500 [] _ kanpurTrace
                kanpurLocation [postOffice; museum; temple] quiet_area_run
                (address_run_candidates kanpurResult []
                   [postOffice; museum; temple] _ [] "Mall Road, Kanpur" 500
                   eq_refl)) as H.
  rewrite quiet_area_survivors in H. apply H. cbn. lia.
Defined.

(** The nine candidates around Kanpur have distinct place IDs, and so
    have the five landmarks returned. *)
Lemma distinct_places_distinct_landmarks_witness :
  NoDup (map Landmark.PlaceID (LandmarksResponse.Landmarks kanpurResponse)).
Proof.
  apply (distinct_places_distinct_landmarks
           strings.ToLowerASCII strings.TrimSpaceASCII insertionSort
           insertionSort_Permutation
           kanpurService "" "" "Mall Road, Kanpur" 500 []
           kanpurResponse kanpurTrace kanpurLocation kanpurPlaces
           kanpur_run kanpur_candidates).
  cbn. repeat constructor; cbn; intuition discriminate.
Defined.

(** * Examples: HTTP *)

(** The empty JSON object selects no input mode: the answer is a soft
    failure, sent with status 200. *)
Lemma landmarks_request_status_witness :
  ResponseWriter.Status
    (http.finish
       (fst ((handleGetLandmarks strings.ToLowerASCII strings.TrimSpaceASCII
                  insertionSort (decodeEmptyObject zeroGetLandmarksRequest)
                  successOnly kanpurService) ResponseWriter.fresh
               (postRequest "/api/get-landmarks" "{}") idle))) = Some 200%nat /\
  ResponseWriter.Body
    (http.finish
       (fst ((handleGetLandmarks strings.ToLowerASCII strings.TrimSpaceASCII
                  insertionSort (decodeEmptyObject zeroGetLandmarksRequest)
                  successOnly kanpurService) ResponseWriter.fresh
               (postRequest "/api/get-landmarks" "{}") idle))) =
  ("{success:false}" ++ http.newline)%string.
Proof.
  destruct (proj1 (proj2 (landmarks_request_status
              strings.ToLowerASCII strings.TrimSpaceASCII insertionSort
              (decodeEmptyObject zeroGetLandmarksRequest) successOnly
              kanpurService ResponseWriter.fresh
              (postRequest "/api/get-landmarks" "{}") idle eq_refl))
              zeroGetLandmarksRequest
              (softFailure
                 "Please provide either an address OR both pin code and city")
              [] eq_refl eq_refl) as (Hs & _ & Hb).
  split; [exact Hs | exact (Hb _ eq_refl)].
Defined.

(** A body that is no JSON is refused with status 400, and the server
    stays idle. *)
Lemma validation_request_status_witness :
  ResponseWriter.Status
    (http.finish
       (fst ((handleValidatePinCode strings.ToLowerASCII strings.TrimSpaceASCII
                  (decodeEmptyObject zeroValidatePinCodeRequest) validOnly
                  kanpurService) ResponseWriter.fresh
               (postRequest "/api/validate-pincode" "pin=208001") idle)))
    = Some 400%nat /\
  ResponseWriter.Body
    (http.finish
       (fst ((handleValidatePinCode strings.ToLowerASCII strings.TrimSpaceASCII
                  (decodeEmptyObject zeroValidatePinCodeRequest) validOnly
                  kanpurService) ResponseWriter.fresh
               (postRequest "/api/validate-pincode" "pin=208001") idle)))
    = ("Invalid request body" ++ http.newline)%string /\
  snd ((handleValidatePinCode strings.ToLowerASCII strings.TrimSpaceASCII
                  (decodeEmptyObject zeroValidatePinCodeRequest) validOnly
                  kanpurService) ResponseWriter.fresh
         (postRequest "/api/validate-pincode" "pin=208001") idle) = idle.
Proof.
  exact (proj1 (validation_request_status
                  strings.ToLowerASCII strings.TrimSpaceASCII
                  (decodeEmptyObject zeroValidatePinCodeRequest) validOnly
                  kanpurService ResponseWriter.fresh
                  (postRequest "/api/validate-pincode" "pin=208001") idle
                  eq_refl) eq_refl).
Defined.

(** The refusal of a body that is no JSON carries the CORS headers. *)
Lemma cors_headers_on_api_responses_witness :
  corsHeadersSent
    (http.finish
       (fst (corsMiddleware (handleValidatePinCode strings.ToLowerASCII strings.TrimSpaceASCII
                  (decodeEmptyObject zeroValidatePinCodeRequest) validOnly
                  kanpurService) ResponseWriter.fresh
               (postRequest "/api/validate-pincode" "pin=208001") idle))).
Proof.
  exact (proj1 (cors_headers_on_api_responses
                  strings.ToLowerASCII strings.TrimSpaceASCII insertionSort
                  (decodeEmptyObject zeroValidatePinCodeRequest)
                  (decodeEmptyObject zeroGetLandmarksRequest)
                  validOnly successOnly
                  kanpurService ResponseWriter.fresh
                  (postRequest "/api/validate-pincode" "pin=208001") idle
                  eq_refl)).
Defined.

(** A preflight request for the landmarks, with the landmarks handler in
    the place of the router: the handler is not reached. *)
Lemma preflight_short_circuits_witness :
  ResponseWriter.Status
    (fst (mainHandler (handleGetLandmarks strings.ToLowerASCII strings.TrimSpaceASCII
                  insertionSort (decodeEmptyObject zeroGetLandmarksRequest)
                  successOnly kanpurService) ResponseWriter.fresh
            preflightRequest idle)) = Some 200%nat /\
  ResponseWriter.Body
    (fst (mainHandler (handleGetLandmarks strings.ToLowerASCII strings.TrimSpaceASCII
                  insertionSort (decodeEmptyObject zeroGetLandmarksRequest)
                  successOnly kanpurService) ResponseWriter.fresh
            preflightRequest idle)) = ""%string /\
  corsHeadersSent
    (fst (mainHandler (handleGetLandmarks strings.ToLowerASCII strings.TrimSpaceASCII
                  insertionSort (decodeEmptyObject zeroGetLandmarksRequest)
                  successOnly kanpurService) ResponseWriter.fresh
            preflightRequest idle)) /\
  calls (snd (mainHandler (handleGetLandmarks strings.ToLowerASCII strings.TrimSpaceASCII
                  insertionSort (decodeEmptyObject zeroGetLandmarksRequest)
                  successOnly kanpurService) ResponseWriter.fresh
                preflightRequest idle)) = [] /\
  logged (snd (mainHandler (handleGetLandmarks strings.ToLowerASCII strings.TrimSpaceASCII
                  insertionSort (decodeEmptyObject zeroGetLandmarksRequest)
                  successOnly kanpurService) ResponseWriter.fresh
                 preflightRequest idle)) =
    ["[OPTIONS] /api/get-landmarks 127.0.0.1:50000"%string].
Proof.
  exact (preflight_short_circuits (handleGetLandmarks strings.ToLowerASCII strings.TrimSpaceASCII
                  insertionSort (decodeEmptyObject zeroGetLandmarksRequest)
                  successOnly kanpurService) ResponseWriter.fresh
           preflightRequest idle eq_refl eq_refl).
Defined.

(** * Examples: the earlier revision *)

Lemma legacy_kanpur_run :
  legacyGetNearbyLandmarks strings.ToLowerASCII strings.TrimSpaceASCII
    kanpurService "208001" "Kanpur" 500 [] =
  (Ok legacyKanpurResponse, legacyKanpurTrace).
Proof. reflexivity. Qed.

(** The earlier revision lists the first three of the nine candidates
    around Kanpur, the post office at the query point among them. *)
Lemma legacy_first_three_unfiltered_witness :
  exists location places,
    nearbyCandidates kanpurService [] legacyKanpurTrace location places /\
    Legacy.LandmarksResponse.Landmarks legacyKanpurResponse =
      map (legacyLandmark location) (firstn 3 places) /\
    Legacy.LandmarksResponse.Message legacyKanpurResponse =
      "Landmarks fetched successfully"%string.
Proof.
  exact (legacy_first_three_unfiltered
           strings.ToLowerASCII strings.TrimSpaceASCII
           kanpurService "208001" "Kanpur" 500 []
           legacyKanpurResponse legacyKanpurTrace legacy_kanpur_run eq_refl).
Defined.

(** * The distance in binary64 *)

Section Binary64.

Import PrimInt63 PrimFloat.
Local Open Scope float_scope.

Variable trigReduce : float -> PrimInt63.int * float.

Example uint64_examples :
  float64.uint64 0 = 0%uint63 /\ float64.uint64 0.75 = 0%uint63 /\
  float64.uint64 5.5 = 5%uint63 /\ float64.uint64 123456789.5 = 123456789%uint63.
Proof. vm_compute. repeat split. Qed.

(** The values that the binary64 code computes for the distances of the
    examples: 111194.92664456605 from the equator one degree to the
    north, and 1111.9492664458344 from (26.45, 80.33) to
    (26.46, 80.33), the coordinates rounded to binary64. *)
Example calculateDistance_binary64_values :
  float64.calculateDistance trigReduce 0 0 1 0 = 0x1.b25aed38940a3p+16 /\
  float64.calculateDistance trigReduce 0x1.a733333333333p+4 0x1.4151eb851eb85p+6
    0x1.a75c28f5c28f6p+4 0x1.4151eb851eb85p+6 = 0x1.15fcc0c80d032p+10.
Proof. vm_compute. repeat split. Qed.

(** [calculateDistance] in binary64 is the code over its value [a]. *)
Lemma calculateDistance_binary64_haversine lat1 lon1 lat2 lon2 :
  float64.calculateDistance trigReduce lat1 lon1 lat2 lon2 =
  6371000 *
  (2 * float64.Atan2
         (float64.Sqrt (float64.haversine_a trigReduce lat1 lon1 lat2 lon2))
         (float64.Sqrt
            (1 - float64.haversine_a trigReduce lat1 lon1 lat2 lon2))).
Proof. reflexivity. Qed.

(** C5.  In binary64 [calculateDistance] fails between (10, 20) and
    (-10, -160), two points that are nearly antipodal: the value [a]
    comes out as 1 + 2^-52, the square root of 1 - a = -2^-52 is NaN,
    and so is the result, in either order of the two points.  The
    result is then not >= 0, and it is not equal to the result for the
    two points exchanged. *)
Theorem calculateDistance_binary64_NaN :
  float64.haversine_a trigReduce 10 20 (-10) (-160) = 0x1.0000000000001p+0 /\
  float64.Sqrt (1 - float64.haversine_a trigReduce 10 20 (-10) (-160)) = nan /\
  float64.calculateDistance trigReduce 10 20 (-10) (-160) = nan /\
  float64.calculateDistance trigReduce (-10) (-160) 10 20 = nan /\
  (0 <=? float64.calculateDistance trigReduce 10 20 (-10) (-160)) = false /\
  (float64.calculateDistance trigReduce 10 20 (-10) (-160) =?
   float64.calculateDistance trigReduce (-10) (-160) 10 20) = false.
Proof. vm_compute. repeat split. Qed.

End Binary64.
